(** * Crime dashboard: load, filter and aggregate ([app.py])

    A shallow embedding of the data path of the Streamlit script [app.py]:
    [load_data] (lines 91-110), the sidebar filter (lines 117-148), the
    empty-frame guard (lines 155-157), the KPI modes (lines 162-165),
    the two chart series (lines 225 and 241) and the table at the foot
    (lines 258-263).

    Modelling choices.
    - A pandas [DataFrame] is a list of column labels together with a list
      of rows; a row is a record with one field per column the script
      reads.  Every access [df['c']] goes through [getitem], which raises
      [KeyError] when the label is not a column, so a field whose column
      is absent cannot be observed.
    - The cells of [zone] and [crime_type] are what [pd.read_csv]
      delivers after NA detection and type inference: [NaN] for a missing
      cell, an integer in a numeric column, text otherwise.  [mode],
      [value_counts] and [groupby] drop missing values, as pandas does.
      One column holds integers or text, not both: [pd.read_csv] infers
      one type per column, so the order between a number and a text is
      never consulted on a column of a file.  An integer column with a
      missing cell is a column of floats in pandas; its values are the
      same numbers in the same order.  Date cells are present (NaT is
      not modelled), and sector or offense columns of decimal numbers
      are outside the cell type.
    - Python exceptions are explicit: [result A] is [Ok a] or [Raise e],
      [try ... except] is [try_except].
    - The file system maps a path to what [pd.read_csv] does there.  The
      paths opened are logged, in order, next to the result.
    - [pd.to_datetime] belongs to pandas; the loader is written over an
      arbitrary cell parser and [iso_datetime] is the ISO-8601 instance
      used to run it.
    - Strings are byte strings compared as Python compares [str]: by code
      point, lexicographically.  Latitude and longitude are kept as the
      text of the cell; the script never inspects them.
    - One run of the script is modelled, from a cold [st.cache_data]
      cache.  The page is the list of elements the run emits, down to
      the footer table; the text formatting of the KPI values and the
      HTML of [kpi_card] are left out. *)

From Stdlib Require Import List Arith Bool Lia String Ascii PeanoNat ZArith Permutation Sorted.
Import ListNotations.
Open Scope string_scope.
Open Scope list_scope.
Open Scope nat_scope.

(* ------------------------------------------------------------------ *)
(** ** Exceptions and results *)

Inductive exn : Type :=
| FileNotFoundError
| PermissionError
| ParserError
| EmptyDataError
| KeyError (label : string)
| ValueError
| LookupError.

Inductive result (A : Type) : Type :=
| Ok (a : A)
| Raise (e : exn).
Arguments Ok {A} a.
Arguments Raise {A} e.

Definition bind {A B} (m : result A) (k : A -> result B) : result B :=
  match m with
  | Ok a => k a
  | Raise e => Raise e
  end.

Declare Scope result_scope.
Delimit Scope result_scope with result.
Notation "x <- m ;; k" := (bind m (fun x => k))
  (at level 100, m at next level, right associativity) : result_scope.

Fixpoint mapM {A B} (f : A -> result B) (l : list A) : result (list B) :=
  match l with
  | [] => Ok []
  | x :: t =>
      match f x with
      | Raise e => Raise e
      | Ok y => match mapM f t with
                | Raise e => Raise e
                | Ok ys => Ok (y :: ys)
                end
      end
  end.

(* ------------------------------------------------------------------ *)
(** ** Column values: equality and natural ordering

    A pandas column holds values that can be hashed (equality), sorted
    (natural ordering) and tested for being missing.  The script
    aggregates over sector and offense cells, hours and timestamps. *)

Class Ordered (A : Type) : Type := {
  val_eqb : A -> A -> bool;
  val_leb : A -> A -> bool;
  val_isna : A -> bool
}.

(** Lexicographic comparison of two sequences of numbers: the order of
    Python on [str] (sequences of code points) and on tuples of ints. *)
Fixpoint lex_compare (a b : list nat) : comparison :=
  match a, b with
  | [], [] => Eq
  | [], _ :: _ => Lt
  | _ :: _, [] => Gt
  | x :: a', y :: b' =>
      match Nat.compare x y with
      | Eq => lex_compare a' b'
      | c => c
      end
  end.

Definition lex_leb (a b : list nat) : bool :=
  match lex_compare a b with Gt => false | _ => true end.

Definition codes (s : string) : list nat :=
  map nat_of_ascii (list_ascii_of_string s).

(** [s1 <= s2] on Python [str]. *)
Definition str_leb (s1 s2 : string) : bool := lex_leb (codes s1) (codes s2).

(** A cell of the [zone] or of the [crime_type] column as [pd.read_csv]
    delivers it: [NaN] for an empty or NA cell, an integer when the
    column was inferred numeric, text otherwise. *)
Inductive cell : Type :=
| NaN
| Str (s : string)
| Int (z : Z).

Coercion Str : string >-> cell.

(** [pd.isna] *)
Definition cell_isna (c : cell) : bool :=
  match c with NaN => true | _ => false end.

(** Equality as [unique], [isin] and the hash tables of pandas see it:
    a missing cell equals a missing cell. *)
Definition cell_eqb (a b : cell) : bool :=
  match a, b with
  | NaN, NaN => true
  | Str s, Str t => String.eqb s t
  | Int x, Int y => Z.eqb x y
  | _, _ => false
  end.

(** Natural ordering: integers numerically, text by code point.  A
    column that [pd.read_csv] delivers holds one kind of value, and the
    aggregates drop [NaN] before they sort; to have a total order,
    integers are put before text and [NaN] last. *)
Definition cell_leb (a b : cell) : bool :=
  match a, b with
  | Int x, Int y => Z.leb x y
  | Int _, _ => true
  | Str _, Int _ => false
  | Str s, Str t => str_leb s t
  | Str _, NaN => true
  | NaN, NaN => true
  | NaN, _ => false
  end.

(* ------------------------------------------------------------------ *)
(** ** Dates and timestamps *)

Record Date : Type := mkDate { d_year : nat; d_month : nat; d_dom : nat }.

Record Timestamp : Type := mkTimestamp {
  ts_year : nat; ts_month : nat; ts_dom : nat;
  ts_hour : nat; ts_minute : nat; ts_second : nat
}.

(** [ts.date()] *)
Definition ts_date (t : Timestamp) : Date :=
  mkDate (ts_year t) (ts_month t) (ts_dom t).

Definition date_fields (d : Date) : list nat := [d_year d; d_month d; d_dom d].

Definition ts_fields (t : Timestamp) : list nat :=
  [ts_year t; ts_month t; ts_dom t; ts_hour t; ts_minute t; ts_second t].

(** Chronological order. *)
Definition date_leb (a b : Date) : bool := lex_leb (date_fields a) (date_fields b).
Definition ts_leb (a b : Timestamp) : bool := lex_leb (ts_fields a) (ts_fields b).
Definition ts_eqb (a b : Timestamp) : bool :=
  match lex_compare (ts_fields a) (ts_fields b) with Eq => true | _ => false end.

Definition is_leap (y : nat) : bool :=
  ((y mod 4 =? 0) && negb (y mod 100 =? 0)) || (y mod 400 =? 0).

Definition days_in_month (y m : nat) : nat :=
  match m with
  | 2 => if is_leap y then 29 else 28
  | 4 | 6 | 9 | 11 => 30
  | _ => 31
  end.

(** A calendar date of [datetime.date]: years 1 to 9999. *)
Definition valid_date (d : Date) : bool :=
  (1 <=? d_year d) && (d_year d <? 100 * 100) &&
  (1 <=? d_month d) && (d_month d <=? 12) &&
  (1 <=? d_dom d) && (d_dom d <=? days_in_month (d_year d) (d_month d)).

Definition valid_ts (t : Timestamp) : bool :=
  valid_date (ts_date t) &&
  (ts_hour t <? 24) && (ts_minute t <? 60) && (ts_second t <? 60).

(** Zero-padded decimal of width [w] ([%0wd]), as code points. *)
Fixpoint zfill (w n : nat) : list nat :=
  match w with
  | 0 => []
  | S w' => zfill w' (n / 10) ++ [48 + n mod 10]
  end.

Definition string_of_codes (l : list nat) : string :=
  string_of_list_ascii (map ascii_of_nat l).

(** [str(d)] for a [datetime.date]: [YYYY-MM-DD]. *)
Definition iso_codes (d : Date) : list nat :=
  zfill 4 (d_year d) ++ [45] ++ zfill 2 (d_month d) ++ [45] ++ zfill 2 (d_dom d).

Definition isoformat (d : Date) : string := string_of_codes (iso_codes d).

(** *** The ISO-8601 instance of the cell parser

    [YYYY-MM-DD] (midnight) and [YYYY-MM-DD HH:MM:SS]; anything else is
    rejected. *)

Definition digit (c : nat) : option nat :=
  if (48 <=? c) && (c <=? 57) then Some (c - 48) else None.

Fixpoint number (cs : list nat) (acc : nat) : option nat :=
  match cs with
  | [] => Some acc
  | c :: t => match digit c with
              | Some d => number t (10 * acc + d)
              | None => None
              end
  end.

Definition sep (c expected : nat) : option unit :=
  if c =? expected then Some tt else None.

Definition obind {A B} (m : option A) (k : A -> option B) : option B :=
  match m with Some a => k a | None => None end.

Definition checked (t : Timestamp) : option Timestamp :=
  if valid_ts t then Some t else None.

Definition iso_date_part (y1 y2 y3 y4 s1 m1 m2 s2 d1 d2 : nat) : option Date :=
  obind (number [y1; y2; y3; y4] 0) (fun y =>
  obind (sep s1 45) (fun _ =>
  obind (number [m1; m2] 0) (fun m =>
  obind (sep s2 45) (fun _ =>
  obind (number [d1; d2] 0) (fun d => Some (mkDate y m d)))))).

Definition iso_time_part (s0 h1 h2 s1 m1 m2 s2 c1 c2 : nat) : option (nat * nat * nat) :=
  obind (sep s0 32) (fun _ =>
  obind (number [h1; h2] 0) (fun h =>
  obind (sep s1 58) (fun _ =>
  obind (number [m1; m2] 0) (fun m =>
  obind (sep s2 58) (fun _ =>
  obind (number [c1; c2] 0) (fun c => Some (h, m, c))))))).

Definition iso_datetime (s : string) : option Timestamp :=
  match codes s with
  | [y1; y2; y3; y4; a; m1; m2; b; d1; d2] =>
      obind (iso_date_part y1 y2 y3 y4 a m1 m2 b d1 d2) (fun d =>
      checked (mkTimestamp (d_year d) (d_month d) (d_dom d) 0 0 0))
  | [y1; y2; y3; y4; a; m1; m2; b; d1; d2; c; h1; h2; e; i1; i2; f; s1; s2] =>
      obind (iso_date_part y1 y2 y3 y4 a m1 m2 b d1 d2) (fun d =>
      obind (iso_time_part c h1 h2 e i1 i2 f s1 s2) (fun '(h, m, z) =>
      checked (mkTimestamp (d_year d) (d_month d) (d_dom d) h m z)))
  | _ => None
  end.

(* ------------------------------------------------------------------ *)
(** ** Frames *)

(** A row of the file as [pd.read_csv] delivers it: the text of the date
    cell, the sector and the offense as typed cells, the coordinates as
    the decimal text of the number. *)
Record RawRow : Type := mkRawRow {
  raw_date : string;
  raw_zone : cell;
  raw_crime_type : cell;
  raw_latitude : string;
  raw_longitude : string
}.

Record RawFrame : Type := mkRawFrame {
  raw_columns : list string;
  raw_rows : list RawRow
}.

(** A row of the frame [load_data] returns: [date] parsed, [hour] and
    [day] derived from it. *)
Record Row : Type := mkRow {
  date : Timestamp;
  hour : nat;
  day : string;
  zone : cell;
  crime_type : cell;
  latitude : string;
  longitude : string
}.

Record DataFrame : Type := mkDataFrame {
  columns : list string;
  rows : list Row
}.

(** [pd.DataFrame()] *)
Definition empty_frame : DataFrame := mkDataFrame [] [].

Definition has_label (c : string) (cols : list string) : bool :=
  existsb (String.eqb c) cols.

(** [df.empty]: some axis has length 0. *)
Definition df_empty (df : DataFrame) : bool :=
  match columns df, rows df with
  | [], _ | _, [] => true
  | _, _ => false
  end.

(** [df[c]] for the column labelled [c], read through field [f]. *)
Definition getitem {A} (c : string) (f : Row -> A) (df : DataFrame) : result (list A) :=
  if has_label c (columns df) then Ok (map f (rows df)) else Raise (KeyError c).

Definition raw_getitem {A} (c : string) (f : RawRow -> A) (df : RawFrame) : result (list A) :=
  if has_label c (raw_columns df) then Ok (map f (raw_rows df)) else Raise (KeyError c).

(** [df[c] = ...] adds the label when it is new. *)
Definition with_label (c : string) (cols : list string) : list string :=
  if has_label c cols then cols else cols ++ [c].

(* ------------------------------------------------------------------ *)
(** ** The data engine: [load_data] (lines 91-110) *)

Definition primary_path : string := "crime_data.csv".
Definition fallback_path : string := "crime-dashboard/crime_data.csv".

(** What [pd.read_csv(path)] does, for every path. *)
Definition FileSystem : Type := string -> result RawFrame.

Definition try_except {A} (body : result A) (handler : exn -> result A) : result A :=
  match body with
  | Ok a => Ok a
  | Raise e => handler e
  end.

Section Loader.

(** [pd.to_datetime] on one cell; [None] when pandas rejects the text. *)
Variable parse : string -> option Timestamp.

Definition to_datetime (cells : list string) : result (list Timestamp) :=
  mapM (fun c => match parse c with
                 | Some t => Ok t
                 | None => Raise ValueError
                 end) cells.

(** Lines 95-98: the inner [try]; the second component is the list of
    paths handed to [pd.read_csv], in order. *)
Definition read_source (fs : FileSystem) : result RawFrame * list string :=
  match fs primary_path with
  | Raise FileNotFoundError => (fs fallback_path, [primary_path; fallback_path])
  | r => (r, [primary_path])
  end.

Definition derive (r : RawRow) (t : Timestamp) : Row :=
  {| date := t;
     hour := ts_hour t;
     day := isoformat (ts_date t);
     zone := raw_zone r;
     crime_type := raw_crime_type r;
     latitude := raw_latitude r;
     longitude := raw_longitude r |}.

(** Lines 101-106. *)
Definition process (raw : RawFrame) : result DataFrame :=
  (cells <- raw_getitem "date" raw_date raw ;;
   stamps <- to_datetime cells ;;
   Ok {| columns := with_label "day" (with_label "hour" (raw_columns raw));
         rows := map (fun p => derive (fst p) (snd p)) (combine (raw_rows raw) stamps) |})%result.

(** The body of the outer [try] (lines 94-108). *)
Definition load_body (fs : FileSystem) : result DataFrame * list string :=
  let (r, log) := read_source fs in
  ((raw <- r ;; process raw)%result, log).

(** [load_data()]: the outer [except Exception] returns [pd.DataFrame()]. *)
Definition load_data (fs : FileSystem) : result DataFrame * list string :=
  let (r, log) := load_body fs in
  (try_except r (fun _ => Ok empty_frame), log).

End Loader.

(* ------------------------------------------------------------------ *)
(** ** Column aggregates, as pandas computes them *)

Section Aggregates.

Context {A : Type} `{Ordered A}.

(** Number of cells of [col] equal to [v]. *)
Definition count (v : A) (col : list A) : nat :=
  List.length (filter (val_eqb v) col).

(** [col.unique()]: distinct values in order of first appearance; a
    missing value is one of them. *)
Fixpoint unique (col : list A) : list A :=
  match col with
  | [] => []
  | x :: t => x :: filter (fun y => negb (val_eqb x y)) (unique t)
  end.

(** [col.dropna()] *)
Definition dropna (col : list A) : list A :=
  filter (fun v => negb (val_isna v)) col.

Fixpoint insert (x : A) (l : list A) : list A :=
  match l with
  | [] => [x]
  | y :: t => if val_leb x y then x :: l else y :: insert x t
  end.

(** Ascending sort in the natural ordering. *)
Fixpoint sort (l : list A) : list A :=
  match l with
  | [] => []
  | x :: t => insert x (sort t)
  end.

Definition max_count (col : list A) : nat :=
  fold_right Nat.max 0 (map (fun v => count v col) (unique col)).

(** The values of highest frequency among the cells [present], sorted
    ascending. *)
Definition most_frequent (present : list A) : list A :=
  sort (filter (fun v => count v present =? max_count present) (unique present)).

(** [col.mode()] (with its default [dropna=True]): missing cells are set
    aside, then the values of highest frequency, sorted ascending.  It
    is empty when no cell is present. *)
Definition mode (col : list A) : list A :=
  most_frequent (dropna col).

Fixpoint insert_by_count (x : A * nat) (l : list (A * nat)) : list (A * nat) :=
  match l with
  | [] => [x]
  | y :: t => if snd y <=? snd x then x :: l else y :: insert_by_count x t
  end.

(** One entry per distinct value of [present] with its frequency,
    highest frequency first. *)
Definition tally (present : list A) : list (A * nat) :=
  fold_right insert_by_count [] (map (fun v => (v, count v present)) (unique present)).

(** [col.value_counts()] (with its default [dropna=True]): one entry per
    distinct present value with its frequency, highest frequency first.
    pandas does not fix the order among equal frequencies; here the
    value seen first comes first. *)
Definition value_counts (col : list A) : list (A * nat) :=
  tally (dropna col).

(** One entry per distinct key of [present] with the size of its group,
    keys ascending. *)
Definition group_sizes (present : list A) : list (A * nat) :=
  map (fun k => (k, count k present)) (sort (unique present)).

(** [groupby(key).size()] (with its default [dropna=True]): rows with a
    missing key are in no group; one entry per distinct present key with
    the size of its group, keys ascending. *)
Definition groupby_size (keys : list A) : list (A * nat) :=
  group_sizes (dropna keys).

(** Sorted ascending in the natural ordering. *)
Definition ascending : list A -> Prop :=
  StronglySorted (fun x y => val_leb x y = true).

End Aggregates.

(** [s[0]] on the result of an aggregate. *)
Definition first {B} (s : list B) : result B :=
  match s with
  | [] => Raise LookupError
  | v :: _ => Ok v
  end.

(* ------------------------------------------------------------------ *)
(** ** Sidebar controls and filter (lines 117-148) *)

(** What [st.date_input] hands back: a tuple of dates, or one date. *)
Inductive DateInput : Type :=
| OneDate (d : Date)
| DateTuple (ds : list Date).

Record Criteria : Type := mkCriteria {
  dates : DateInput;
  zones : list cell;
  crimes : list cell
}.

(** [values.isin(selected)]; a missing cell is in a selection that holds
    the missing value. *)
Definition isin (selected : list cell) (values : list cell) : list bool :=
  map (fun v => existsb (cell_eqb v) selected) values.

(** [mask &= other] *)
Definition mask_and (mask other : list bool) : list bool :=
  map (fun p => fst p && snd p) (combine mask other).

(** [df.loc[mask]] *)
Definition loc (df : DataFrame) (mask : list bool) : DataFrame :=
  {| columns := columns df;
     rows := map fst (filter snd (combine (rows df) mask)) |}.

Definition day_equals (d0 : Date) (df : DataFrame) : result (list bool) :=
  (days <- getitem "day" day df ;;
   Ok (map (fun d => String.eqb d (isoformat d0)) days))%result.

(** Lines 133-142. *)
Definition date_mask (dates : DateInput) (df : DataFrame) : result (list bool) :=
  match dates with
  | DateTuple [start_d; end_d] =>
      (lower <- getitem "day" day df ;;
       upper <- getitem "day" day df ;;
       Ok (mask_and (map (fun d => str_leb (isoformat start_d) d) lower)
                    (map (fun d => str_leb d (isoformat end_d)) upper)))%result
  | DateTuple [d0] => day_equals d0 df
  | DateTuple _ => Ok (repeat true (List.length (rows df)))
  | OneDate d0 => day_equals d0 df
  end.

(** The test the date part of the mask applies to the [day] of a row. *)
Definition date_test (dates : DateInput) (d : string) : bool :=
  match dates with
  | DateTuple [start_d; end_d] =>
      str_leb (isoformat start_d) d && str_leb d (isoformat end_d)
  | DateTuple [d0] | OneDate d0 => String.eqb d (isoformat d0)
  | DateTuple _ => true
  end.

#[export] Instance Ordered_str : Ordered string :=
  {| val_eqb := String.eqb; val_leb := str_leb; val_isna := fun _ => false |}.

#[export] Instance Ordered_int : Ordered nat :=
  {| val_eqb := Nat.eqb; val_leb := Nat.leb; val_isna := fun _ => false |}.

#[export] Instance Ordered_Timestamp : Ordered Timestamp :=
  {| val_eqb := ts_eqb; val_leb := ts_leb; val_isna := fun _ => false |}.

#[export] Instance Ordered_cell : Ordered cell :=
  {| val_eqb := cell_eqb; val_leb := cell_leb; val_isna := cell_isna |}.

(** The laws that make the aggregates meaningful: [val_eqb] decides
    equality and [val_leb] is a total order. *)
Class OrderedLaws (A : Type) `{Ordered A} : Prop := {
  val_eqb_eq : forall x y : A, val_eqb x y = true <-> x = y;
  val_leb_total : forall x y : A, val_leb x y = true \/ val_leb y x = true;
  val_leb_trans : forall x y z : A,
      val_leb x y = true -> val_leb y z = true -> val_leb x z = true;
  val_leb_antisym : forall x y : A, val_leb x y = true -> val_leb y x = true -> x = y
}.

(** [col.min()] and [col.max()] of a timestamp column.  The script
    takes them under [if not df.empty], so the column has a cell; the
    empty case is closed with [ValueError]. *)
Definition column_min (col : list Timestamp) : result Timestamp :=
  match col with
  | [] => Raise ValueError
  | x :: t => Ok (fold_left (fun m y => if ts_leb y m then y else m) t x)
  end.

Definition column_max (col : list Timestamp) : result Timestamp :=
  match col with
  | [] => Raise ValueError
  | x :: t => Ok (fold_left (fun m y => if ts_leb m y then y else m) t x)
  end.

(* ------------------------------------------------------------------ *)
(** ** The footer table (lines 258-263) *)

Record LogRow : Type := mkLogRow {
  log_date : Timestamp;
  log_hour : nat;
  log_zone : cell;
  log_crime_type : cell;
  log_latitude : string;
  log_longitude : string
}.

Definition log_labels : list string :=
  ["date"; "hour"; "zone"; "crime_type"; "latitude"; "longitude"].

(** [df[[c1, ..., cn]]] raises [KeyError] when a label is not a column;
    pandas names every missing label, the first one stands for them. *)
Fixpoint first_missing (wanted cols : list string) : option string :=
  match wanted with
  | [] => None
  | c :: rest => if has_label c cols then first_missing rest cols else Some c
  end.

Definition project (r : Row) : LogRow :=
  {| log_date := date r;
     log_hour := hour r;
     log_zone := zone r;
     log_crime_type := crime_type r;
     log_latitude := latitude r;
     log_longitude := longitude r |}.

Fixpoint insert_newest (x : LogRow) (l : list LogRow) : list LogRow :=
  match l with
  | [] => [x]
  | y :: t => if ts_leb (log_date y) (log_date x) then x :: l else y :: insert_newest x t
  end.

(** [sort_values('date', ascending=False)].  pandas does not fix the
    order among equal timestamps; here the earlier row comes first. *)
Definition sort_newest_first (l : list LogRow) : list LogRow :=
  fold_right insert_newest [] l.

(** Lines 258-263: the table of the expander.  The body of the [with]
    block runs whether the expander is open or not. *)
Definition data_feed (filtered_df : DataFrame) : result (list LogRow) :=
  match first_missing log_labels (columns filtered_df) with
  | Some c => Raise (KeyError c)
  | None => Ok (sort_newest_first (map project (rows filtered_df)))
  end.

(* ------------------------------------------------------------------ *)
(** ** The page *)

(** What the script puts on the page. *)
Inductive kpi : Type :=
| Count (n : nat)
| Text (v : cell)
| HourOfDay (h : nat).

Inductive element : Type :=
| SidebarTitle
| DateInputWidget (lo hi : Date)
| MultiSelect (label : string) (options : list cell)
| PageTitle
| ErrorBox (msg : string)
| KpiCard (label : string) (value : kpi)
| DeckChart (data : list Row)
| BarChart (counts : list (cell * nat))
| AreaChart (trend : list (Timestamp * nat))
| DataFeed (log : list LogRow).

Definition offline_msg : string :=
  "SYSTEM OFFLINE: NO DATA FOUND. CHECK CONNECTION.".

(** Lines 117-148: the widgets shown in the sidebar and [filtered_df].
    The operator's answer to the three widgets is [ui]. *)
Definition sidebar (df : DataFrame) (ui : Criteria) : result (list element * DataFrame) :=
  if negb (df_empty df) then
    (stamps <- getitem "date" date df ;;
     lo <- column_min stamps ;;
     hi <- column_max stamps ;;
     zs <- getitem "zone" zone df ;;
     cs <- getitem "crime_type" crime_type df ;;
     mask <- date_mask (dates ui) df ;;
     zs' <- getitem "zone" zone df ;;
     cs' <- getitem "crime_type" crime_type df ;;
     Ok ([SidebarTitle;
          DateInputWidget (ts_date lo) (ts_date hi);
          MultiSelect "SECTORS" (unique zs);
          MultiSelect "OFFENSE CODES" (unique cs)],
         loc df (mask_and (mask_and mask (isin (zones ui) zs')) (isin (crimes ui) cs'))))%result
  else Ok ([SidebarTitle], empty_frame).

(** Lines 160-253: KPI cards, map and the two charts. *)
Definition dashboard (filtered_df : DataFrame) : result (list element) :=
  (let total := List.length (rows filtered_df) in
   zs <- getitem "zone" zone filtered_df ;;
   risk_zone <- first (mode zs) ;;
   cs <- getitem "crime_type" crime_type filtered_df ;;
   primary_code <- first (mode cs) ;;
   hs <- getitem "hour" hour filtered_df ;;
   peak_h <- first (mode hs) ;;
   cs' <- getitem "crime_type" crime_type filtered_df ;;
   ds <- getitem "date" date filtered_df ;;
   Ok [KpiCard "TOTAL INCIDENTS" (Count total);
       KpiCard "HIGH RISK SECTOR" (Text risk_zone);
       KpiCard "PRIMARY OFFENSE" (Text primary_code);
       KpiCard "PEAK ACTIVITY" (HourOfDay peak_h);
       DeckChart (rows filtered_df);
       BarChart (value_counts cs');
       AreaChart (groupby_size ds)])%result.

(** How a run of the script ends: [st.stop()], the last line, or an
    exception that nothing catches. *)
Inductive outcome : Type :=
| Stopped (page : list element)
| Completed (page : list element)
| Crashed (e : exn).

(** Lines 153-263. *)
Definition main (filtered_df : DataFrame) : outcome :=
  if df_empty filtered_df then Stopped [PageTitle; ErrorBox offline_msg]
  else match dashboard filtered_df with
       | Raise e => Crashed e
       | Ok els =>
           match data_feed filtered_df with
           | Raise e => Crashed e
           | Ok log => Completed (PageTitle :: els ++ [DataFeed log])
           end
       end.

Definition after_sidebar (side : list element) (o : outcome) : outcome :=
  match o with
  | Stopped page => Stopped (side ++ page)
  | Completed page => Completed (side ++ page)
  | Crashed e => Crashed e
  end.

(** One run of the script. *)
Definition app (parse : string -> option Timestamp) (fs : FileSystem) (ui : Criteria) : outcome :=
  match fst (load_data parse fs) with
  | Raise e => Crashed e
  | Ok df =>
      match sidebar df ui with
      | Raise e => Crashed e
      | Ok (side, filtered_df) => after_sidebar side (main filtered_df)
      end
  end.

Definition is_sidebar_widget (e : element) : bool :=
  match e with
  | SidebarTitle | DateInputWidget _ _ | MultiSelect _ _ => true
  | _ => false
  end.

(** The part of a page below the sidebar. *)
Definition main_area (page : list element) : list element :=
  filter (fun e => negb (is_sidebar_widget e)) page.

(* ------------------------------------------------------------------ *)
(** ** Worked inputs *)

Definition csv_header : list string :=
  ["date"; "zone"; "crime_type"; "latitude"; "longitude"].

Definition nothing_on_disk : FileSystem := fun _ => Raise FileNotFoundError.

Definition sample_rows : list RawRow :=
  [mkRawRow "2024-01-01 10:00:00" "A" "theft" "28.61" "77.20";
   mkRawRow "2024-01-01 11:30:00" "B" "theft" "28.62" "77.21";
   mkRawRow "2024-01-02 09:15:00" "A" "assault" "28.63" "77.22"].

Definition sample_csv : RawFrame := mkRawFrame csv_header sample_rows.

Definition only_primary (f : RawFrame) : FileSystem :=
  fun p => if String.eqb p primary_path then Ok f else Raise FileNotFoundError.

Definition only_fallback (f : RawFrame) : FileSystem :=
  fun p => if String.eqb p fallback_path then Ok f else Raise FileNotFoundError.

(* ------------------------------------------------------------------ *)
(** ** Predicates used in the statements *)

(** Row by row, the mask of lines 133-145. *)
Definition row_test (ui : Criteria) (r : Row) : bool :=
  date_test (dates ui) (day r) &&
  existsb (cell_eqb (zone r)) (zones ui) &&
  existsb (cell_eqb (crime_type r)) (crimes ui).

(** What the date choice asks of the [day] of a row. *)
Definition date_condition (dates : DateInput) (d : string) : Prop :=
  match dates with
  | DateTuple [start_d; end_d] =>
      str_leb (isoformat start_d) d = true /\ str_leb d (isoformat end_d) = true
  | DateTuple [d0] | OneDate d0 => d = isoformat d0
  | DateTuple _ => True
  end.

(** Chronological order on dates, spelled out. *)
Definition date_le (a b : Date) : Prop :=
  d_year a < d_year b \/
  (d_year a = d_year b /\
   (d_month a < d_month b \/ (d_month a = d_month b /\ d_dom a <= d_dom b))).

(** The frames [process] builds. *)
Definition derived_columns (df : DataFrame) : Prop :=
  has_label "date" (columns df) = true /\
  has_label "hour" (columns df) = true /\
  has_label "day" (columns df) = true /\
  Forall (fun r => hour r = ts_hour (date r) /\ day r = isoformat (ts_date (date r)))
         (rows df).

(** Stated from the specification (4.3, tie-break): [v] is a value of
    the column (not a missing cell), no value is more frequent, and [v]
    is the least of the values as frequent as itself. *)
Definition least_most_frequent {A} `{Ordered A} (v : A) (col : list A) : Prop :=
  In v col /\ val_isna v = false /\
  (forall w, val_isna w = false -> count w col <= count v col) /\
  (forall w, val_isna w = false -> count w col = count v col -> val_leb v w = true).

(** Stated from the specification (4.3, [daily_series]): each distinct
    [day] of the view with its number of rows, days ascending. *)
Definition spec_daily_series (view : list Row) : list (string * nat) :=
  groupby_size (map day view).

(** The keys of a trend series, printed as days. *)
Definition keys_as_days (trend : list (Timestamp * nat)) : list (string * nat) :=
  map (fun p => (isoformat (ts_date (fst p)), snd p)) trend.

(* ------------------------------------------------------------------ *)
(** ** Further worked inputs *)

Definition corrupt_csv : RawFrame :=
  mkRawFrame csv_header
    [mkRawRow "2024-01-01 10:00:00" "A" "theft" "28.61" "77.20";
     mkRawRow "not a date" "B" "theft" "28.62" "77.21"].

Definition sample_df : DataFrame :=
  {| columns := csv_header ++ ["hour"; "day"];
     rows := [mkRow (mkTimestamp 2024 1 1 10 0 0) 10 "2024-01-01" "A" "theft" "28.61" "77.20";
              mkRow (mkTimestamp 2024 1 1 11 30 0) 11 "2024-01-01" "B" "theft" "28.62" "77.21";
              mkRow (mkTimestamp 2024 1 2 9 15 0) 9 "2024-01-02" "A" "assault" "28.63" "77.22"] |}.

Definition sample_widgets : list element :=
  [SidebarTitle;
   DateInputWidget (mkDate 2024 1 1) (mkDate 2024 1 2);
   MultiSelect "SECTORS" [Str "A"; Str "B"];
   MultiSelect "OFFENSE CODES" [Str "theft"; Str "assault"]].

(** The operator clears the sector list. *)
Definition no_sector : Criteria :=
  mkCriteria (DateTuple [mkDate 2024 1 1; mkDate 2024 1 2]) [] [Str "theft"; Str "assault"].

(** The operator clears the offense list. *)
Definition no_offense : Criteria :=
  mkCriteria (DateTuple [mkDate 2024 1 1; mkDate 2024 1 2]) [Str "A"; Str "B"] [].

(** A file whose sector cells are all empty, the frame [load_data] makes
    of it, and the choice the widgets offer by default: the one sector
    the multiselect lists is the missing value. *)
Definition unzoned_csv : RawFrame :=
  mkRawFrame csv_header
    [mkRawRow "2024-01-01 10:00:00" NaN "theft" "28.61" "77.20";
     mkRawRow "2024-01-01 11:30:00" NaN "assault" "28.62" "77.21"].

Definition unzoned_df : DataFrame :=
  {| columns := csv_header ++ ["hour"; "day"];
     rows := [mkRow (mkTimestamp 2024 1 1 10 0 0) 10 "2024-01-01" NaN "theft" "28.61" "77.20";
              mkRow (mkTimestamp 2024 1 1 11 30 0) 11 "2024-01-01" NaN "assault" "28.62" "77.21"] |}.

Definition unzoned_choice : Criteria :=
  mkCriteria (DateTuple [mkDate 2024 1 1; mkDate 2024 1 1])
             [NaN] [Str "theft"; Str "assault"].

(** A file one row of which has no offense, the frame [load_data] makes
    of it, and the choice the widgets offer by default. *)
Definition uncoded_csv : RawFrame :=
  mkRawFrame csv_header
    [mkRawRow "2024-01-01 10:00:00" "A" "theft" "28.61" "77.20";
     mkRawRow "2024-01-01 11:30:00" "B" NaN "28.62" "77.21";
     mkRawRow "2024-01-02 09:15:00" "A" "assault" "28.63" "77.22"].

Definition uncoded_choice : Criteria :=
  mkCriteria (DateTuple [mkDate 2024 1 1; mkDate 2024 1 2])
             [Str "A"; Str "B"] [Str "theft"; NaN; Str "assault"].

Definition uncoded_df : DataFrame :=
  {| columns := csv_header ++ ["hour"; "day"];
     rows := [mkRow (mkTimestamp 2024 1 1 10 0 0) 10 "2024-01-01" "A" "theft" "28.61" "77.20";
              mkRow (mkTimestamp 2024 1 1 11 30 0) 11 "2024-01-01" "B" NaN "28.62" "77.21";
              mkRow (mkTimestamp 2024 1 2 9 15 0) 9 "2024-01-02" "A" "assault" "28.63" "77.22"] |}.

(** A frame where every sector, every offense and every hour is tied. *)
Definition tied_df : DataFrame :=
  {| columns := csv_header ++ ["hour"; "day"];
     rows := [mkRow (mkTimestamp 2024 1 1 22 0 0) 22 "2024-01-01" "north" "theft" "28.6" "77.2";
              mkRow (mkTimestamp 2024 1 1 7 0 0) 7 "2024-01-01" "East" "assault" "28.6" "77.2";
              mkRow (mkTimestamp 2024 1 2 7 0 0) 7 "2024-01-02" "East" "theft" "28.6" "77.2";
              mkRow (mkTimestamp 2024 1 2 22 0 0) 22 "2024-01-02" "north" "assault" "28.6" "77.2"] |}.

(** The scenario of section 8 of the specification: three incidents, of
    which the specification fixes day, zone and offense; the time of day
    of each is left open. *)
Definition at_time (d : Date) (clock : nat * nat * nat) : Timestamp :=
  mkTimestamp (d_year d) (d_month d) (d_dom d)
              (fst (fst clock)) (snd (fst clock)) (snd clock).

Definition incident (d : Date) (clock : nat * nat * nat) (z c : cell) : Row :=
  {| date := at_time d clock;
     hour := fst (fst clock);
     day := isoformat d;
     zone := z;
     crime_type := c;
     latitude := "28.61";
     longitude := "77.20" |}.

Definition scenario_df (c1 c2 c3 : nat * nat * nat) : DataFrame :=
  {| columns := csv_header ++ ["hour"; "day"];
     rows := [incident (mkDate 2024 1 1) c1 "A" "theft";
              incident (mkDate 2024 1 1) c2 "B" "theft";
              incident (mkDate 2024 1 2) c3 "A" "assault"] |}.

Definition scenario_ui : Criteria :=
  mkCriteria (DateTuple [mkDate 2024 1 1; mkDate 2024 1 1])
             [Str "A"; Str "B"] [Str "theft"; Str "assault"].

Definition scenario_view (c1 c2 c3 : nat * nat * nat) : DataFrame :=
  {| columns := csv_header ++ ["hour"; "day"];
     rows := [incident (mkDate 2024 1 1) c1 "A" "theft";
              incident (mkDate 2024 1 1) c2 "B" "theft"] |}.

(* ------------------------------------------------------------------ *)
(** ** Widget defaults (lines 125-129) *)

(** What the three widgets return while the operator has touched
    nothing: [st.date_input] its [value] list as a tuple, each
    [st.multiselect] its [default]. *)
Definition default_choice (side : list element) : option Criteria :=
  match side with
  | [SidebarTitle; DateInputWidget lo hi; MultiSelect _ zs; MultiSelect _ cs] =>
      Some (mkCriteria (DateTuple [lo; hi]) zs cs)
  | _ => None
  end.

(* ------------------------------------------------------------------ *)
(** ** More worked inputs *)

(** A file system with a file at each of the two paths. *)
Definition both_paths (primary fallback : RawFrame) : FileSystem :=
  fun p => if String.eqb p primary_path then Ok primary
           else if String.eqb p fallback_path then Ok fallback
           else Raise FileNotFoundError.

(** A file without [zone] column. *)
Definition no_zone_csv : RawFrame :=
  mkRawFrame ["date"; "crime_type"; "latitude"; "longitude"] sample_rows.

(* ------------------------------------------------------------------ *)
(** ** Evaluation of the model on the worked inputs *)

Example isoformat_ex : isoformat (mkDate 2024 1 5) = "2024-01-05".
Proof. reflexivity. Qed.

Example iso_datetime_ex :
  iso_datetime "2024-01-05 13:45:00" = Some (mkTimestamp 2024 1 5 13 45 0).
Proof. vm_compute. reflexivity. Qed.

Example iso_datetime_bad : iso_datetime "2024-02-30" = None.
Proof. vm_compute. reflexivity. Qed.

Example load_sample :
  fst (load_data iso_datetime (only_fallback sample_csv)) =
  Ok {| columns := csv_header ++ ["hour"; "day"];
        rows := [mkRow (mkTimestamp 2024 1 1 10 0 0) 10 "2024-01-01" "A" "theft" "28.61" "77.20";
                 mkRow (mkTimestamp 2024 1 1 11 30 0) 11 "2024-01-01" "B" "theft" "28.62" "77.21";
                 mkRow (mkTimestamp 2024 1 2 9 15 0) 9 "2024-01-02" "A" "assault" "28.63" "77.22"] |}.
Proof. vm_compute. reflexivity. Qed.

(* ------------------------------------------------------------------ *)
(** ** The natural orderings are total orders *)

Lemma lex_compare_refl (a : list nat) : lex_compare a a = Eq.
Proof.
  induction a as [|x a IH]; simpl; [reflexivity|].
  now rewrite Nat.compare_refl.
Qed.

Lemma lex_compare_eq (a b : list nat) : lex_compare a b = Eq -> a = b.
Proof.
  revert b; induction a as [|x a IH]; intros [|y b]; simpl; try easy.
  destruct (Nat.compare x y) eqn:E; try easy.
  apply Nat.compare_eq in E; subst y.
  intros Hab; f_equal; auto.
Qed.

Lemma lex_compare_antisym (a b : list nat) :
  lex_compare a b = CompOpp (lex_compare b a).
Proof.
  revert b; induction a as [|x a IH]; intros [|y b]; simpl; try reflexivity.
  rewrite (Nat.compare_antisym y x).
  destruct (Nat.compare y x); simpl; auto.
Qed.

Lemma lex_compare_lt_trans (a b c : list nat) :
  lex_compare a b = Lt -> lex_compare b c = Lt -> lex_compare a c = Lt.
Proof.
  revert b c; induction a as [|x a IH]; intros [|y b] [|z c]; simpl; try easy.
  destruct (Nat.compare x y) eqn:Exy; try easy;
    destruct (Nat.compare y z) eqn:Eyz; try easy; intros Hab Hbc.
  - apply Nat.compare_eq in Exy, Eyz; subst.
    rewrite Nat.compare_refl; eauto.
  - apply Nat.compare_eq in Exy; subst; now rewrite Eyz.
  - apply Nat.compare_eq in Eyz; subst; now rewrite Exy.
  - apply Nat.compare_lt_iff in Exy, Eyz.
    assert (E : Nat.compare x z = Lt) by (apply Nat.compare_lt_iff; lia).
    now rewrite E.
Qed.

Lemma lex_leb_total (a b : list nat) : lex_leb a b = true \/ lex_leb b a = true.
Proof.
  unfold lex_leb; rewrite (lex_compare_antisym b a).
  destruct (lex_compare a b); simpl; auto.
Qed.

Lemma lex_leb_trans (a b c : list nat) :
  lex_leb a b = true -> lex_leb b c = true -> lex_leb a c = true.
Proof.
  unfold lex_leb.
  destruct (lex_compare a b) eqn:Eab; try easy;
    destruct (lex_compare b c) eqn:Ebc; try easy; intros _ _.
  - apply lex_compare_eq in Eab; subst; now rewrite Ebc.
  - apply lex_compare_eq in Eab; subst; now rewrite Ebc.
  - apply lex_compare_eq in Ebc; subst; now rewrite Eab.
  - now rewrite (lex_compare_lt_trans a b c).
Qed.

Lemma lex_leb_antisym (a b : list nat) :
  lex_leb a b = true -> lex_leb b a = true -> a = b.
Proof.
  unfold lex_leb; rewrite (lex_compare_antisym b a).
  destruct (lex_compare a b) eqn:E; simpl; try easy.
  intros _ _; now apply lex_compare_eq.
Qed.

Lemma codes_inj (s1 s2 : string) : codes s1 = codes s2 -> s1 = s2.
Proof.
  unfold codes; intros Hc.
  rewrite <- (string_of_list_ascii_of_string s1), <- (string_of_list_ascii_of_string s2).
  f_equal.
  revert Hc; generalize (list_ascii_of_string s2) as l2.
  induction (list_ascii_of_string s1) as [|c l1 IH]; intros [|c2 l2]; simpl; try easy.
  intros Hc; injection Hc as Hhd Htl.
  f_equal; [|now apply IH].
  rewrite <- (ascii_nat_embedding c), <- (ascii_nat_embedding c2); now f_equal.
Qed.

Lemma ts_fields_inj (a b : Timestamp) : ts_fields a = ts_fields b -> a = b.
Proof.
  destruct a, b; unfold ts_fields; simpl; intros E; injection E; intros; now subst.
Qed.

Lemma date_fields_inj (a b : Date) : date_fields a = date_fields b -> a = b.
Proof.
  destruct a, b; unfold date_fields; simpl; intros E; injection E; intros; now subst.
Qed.

#[export] Instance OrderedLaws_str : OrderedLaws string.
Proof.
  split; simpl; unfold str_leb.
  - apply String.eqb_eq.
  - intros; apply lex_leb_total.
  - intros x y z; apply lex_leb_trans.
  - intros x y Hxy Hyx; apply codes_inj; now apply lex_leb_antisym.
Qed.

#[export] Instance OrderedLaws_int : OrderedLaws nat.
Proof.
  split; simpl.
  - apply Nat.eqb_eq.
  - intros x y; rewrite !Nat.leb_le; lia.
  - intros x y z; rewrite !Nat.leb_le; lia.
  - intros x y; rewrite !Nat.leb_le; lia.
Qed.

#[export] Instance OrderedLaws_Timestamp : OrderedLaws Timestamp.
Proof.
  split; simpl; unfold ts_leb, ts_eqb.
  - intros x y; split.
    + destruct (lex_compare (ts_fields x) (ts_fields y)) eqn:E; try easy.
      intros _; now apply ts_fields_inj, lex_compare_eq.
    + intros ->; now rewrite lex_compare_refl.
  - intros; apply lex_leb_total.
  - intros x y z; apply lex_leb_trans.
  - intros x y Hxy Hyx; apply ts_fields_inj; now apply lex_leb_antisym.
Qed.

(* ------------------------------------------------------------------ *)
(** ** Facts about the aggregates *)

Section AggregateFacts.

Context {A : Type} `{OrderedLaws A}.

Lemma val_eqb_refl (x : A) : val_eqb x x = true.
Proof. now apply val_eqb_eq. Qed.

Lemma val_eqb_false (x y : A) : val_eqb x y = false <-> x <> y.
Proof.
  split.
  - intros E Hxy; apply val_eqb_eq in Hxy; congruence.
  - intros Hxy; destruct (val_eqb x y) eqn:E; [|reflexivity].
    apply val_eqb_eq in E; contradiction.
Qed.

Lemma val_leb_refl (x : A) : val_leb x x = true.
Proof. destruct (val_leb_total x x); assumption. Qed.

Lemma count_cons (v x : A) (col : list A) :
  count v (x :: col) = (if val_eqb v x then 1 else 0) + count v col.
Proof. unfold count; simpl; now destruct (val_eqb v x). Qed.

Lemma count_pos_In (v : A) (col : list A) : 0 < count v col <-> In v col.
Proof.
  induction col as [|x col IH]; [unfold count; simpl; split; [lia | easy]|].
  rewrite count_cons; simpl.
  destruct (val_eqb v x) eqn:E.
  - apply val_eqb_eq in E; subst; split; [auto | lia].
  - apply val_eqb_false in E; rewrite <- IH; simpl.
    split; [auto | intros [Hx | Hc]; [congruence | lia]].
Qed.

Lemma count_notin (v : A) (col : list A) : ~ In v col -> count v col = 0.
Proof.
  intros Hn; destruct (count v col) eqn:E; [reflexivity|].
  exfalso; apply Hn, count_pos_In; lia.
Qed.

Lemma In_unique (x : A) (col : list A) : In x (unique col) <-> In x col.
Proof.
  induction col as [|y col IH]; simpl; [reflexivity|].
  rewrite filter_In, IH, negb_true_iff, val_eqb_false.
  split.
  - intros [E | [Hin _]]; auto.
  - intros [E | Hin]; [auto|].
    destruct (val_eqb y x) eqn:Eyx.
    + apply val_eqb_eq in Eyx; auto.
    + apply val_eqb_false in Eyx; auto.
Qed.

Lemma NoDup_unique (col : list A) : NoDup (unique col).
Proof.
  induction col as [|y col IH]; simpl; constructor.
  - rewrite filter_In, negb_true_iff, val_eqb_false; intros [_ Hne]; now apply Hne.
  - now apply NoDup_filter.
Qed.

Lemma count_NoDup_In (x : A) (u : list A) : NoDup u -> In x u -> count x u = 1.
Proof.
  induction 1 as [|y u Hy Hu IH]; simpl; [easy|].
  rewrite count_cons; intros [E | Hin].
  - subst; rewrite val_eqb_refl, count_notin; auto.
  - destruct (val_eqb x y) eqn:E; [|now rewrite IH].
    apply val_eqb_eq in E; subst; contradiction.
Qed.

(** Counting over a duplicate-free list of candidates that covers the
    column counts every cell exactly once. *)
Lemma sum_counts (u col : list A) :
  NoDup u -> (forall x, In x col -> In x u) ->
  list_sum (map (fun v => count v col) u) = List.length col.
Proof.
  intros Hu; induction col as [|x col IH]; intros Hcover.
  - clear Hcover Hu; induction u; simpl; auto.
  - assert (E : list_sum (map (fun v => count v (x :: col)) u)
                = count x u + list_sum (map (fun v => count v col) u)).
    { clear IH Hcover Hu; induction u as [|v u IHu]; simpl; [reflexivity|].
      rewrite IHu, !count_cons.
      destruct (val_eqb v x) eqn:Evx, (val_eqb x v) eqn:Exv; try lia.
      - apply val_eqb_eq in Evx; subst; rewrite val_eqb_refl in Exv; discriminate.
      - apply val_eqb_eq in Exv; subst; rewrite val_eqb_refl in Evx; discriminate. }
    rewrite E, IH, count_NoDup_In; simpl; auto.
    + apply Hcover; now left.
    + intros y Hy; apply Hcover; now right.
Qed.

Lemma insert_perm (x : A) (l : list A) : Permutation (insert x l) (x :: l).
Proof.
  induction l as [|y l IH]; simpl; [reflexivity|].
  destruct (val_leb x y); [reflexivity|].
  rewrite IH; apply perm_swap.
Qed.

Lemma sort_perm (l : list A) : Permutation (sort l) l.
Proof.
  induction l as [|x l IH]; simpl; [reflexivity|].
  now rewrite insert_perm, IH.
Qed.

Lemma insert_ascending (x : A) (l : list A) : ascending l -> ascending (insert x l).
Proof.
  unfold ascending; induction 1 as [|y l Hl IH Hy]; simpl.
  - repeat constructor.
  - destruct (val_leb x y) eqn:E.
    + constructor; [now constructor|].
      constructor; [assumption|].
      rewrite Forall_forall in *; intros z Hz.
      eapply val_leb_trans; eauto.
    + constructor; [assumption|].
      rewrite Forall_forall in *; intros z Hz.
      apply (Permutation_in _ (insert_perm x l)) in Hz.
      destruct Hz as [<- | Hz]; [|auto].
      destruct (val_leb_total x y); congruence.
Qed.

Lemma sort_ascending (l : list A) : ascending (sort l).
Proof.
  induction l; simpl; [constructor | now apply insert_ascending].
Qed.

Lemma sort_head_least (l t : list A) (v : A) :
  sort l = v :: t -> forall w, In w l -> val_leb v w = true.
Proof.
  intros E w Hw.
  pose proof (sort_ascending l) as Hs; rewrite E in Hs.
  apply (Permutation_in _ (Permutation_sym (sort_perm l))) in Hw.
  rewrite E in Hw; destruct Hw as [<- | Hw]; [apply val_leb_refl|].
  inversion Hs as [|? ? _ Hall]; subst.
  rewrite Forall_forall in Hall; auto.
Qed.

Lemma max_count_bound (w : A) (col : list A) : count w col <= max_count col.
Proof.
  destruct (count w col) eqn:E; [lia|].
  assert (Hin : In w (unique col)) by (apply In_unique, count_pos_In; lia).
  rewrite <- E; unfold max_count.
  induction (unique col) as [|v u IH]; simpl in *; [easy|].
  destruct Hin as [-> | Hin]; [lia|].
  specialize (IH Hin); lia.
Qed.

Lemma max_count_attained (col : list A) :
  col <> [] -> exists v, In v col /\ count v col = max_count col.
Proof.
  intros Hne.
  assert (Hu : unique col <> []) by (destruct col; simpl; congruence).
  assert (G : exists v, In v (unique col) /\ count v col = max_count col).
  { unfold max_count; induction (unique col) as [|v u IH]; [congruence|].
    destruct u as [|v' u'].
    - exists v; simpl; split; [auto | lia].
    - destruct IH as (w & Hw & Ew); [congruence|].
      remember (v' :: u') as u.
      simpl. destruct (Nat.max_spec (count v col)
                         (fold_right Nat.max 0 (map (fun v0 => count v0 col) u)))
        as [[_ ->] | [_ ->]].
      + exists w; split; [right|]; assumption.
      + exists v; split; [left|]; reflexivity. }
  destruct G as (v & Hv & Ev); exists v; split; [now apply In_unique | assumption].
Qed.

(** The first of the most frequent values of a list with an element: a
    value of highest frequency, and the least such value. *)
Lemma most_frequent_spec (col : list A) :
  col <> [] ->
  exists v, first (most_frequent col) = Ok v /\
            In v col /\
            (forall w, count w col <= count v col) /\
            (forall w, count w col = count v col -> val_leb v w = true).
Proof.
  intros Hne.
  set (tied := filter (fun v => count v col =? max_count col) (unique col)).
  assert (Htied : forall w, In w tied <-> In w col /\ count w col = max_count col).
  { intros w; unfold tied; now rewrite filter_In, In_unique, Nat.eqb_eq. }
  destruct (max_count_attained col Hne) as (m & Hm & Em).
  destruct (most_frequent col) as [|v t] eqn:E.
  - exfalso. assert (Hin : In m (most_frequent col)).
    { unfold most_frequent; apply (Permutation_in _ (Permutation_sym (sort_perm _))).
      now apply Htied. }
    now rewrite E in Hin.
  - exists v; split; [reflexivity|].
    assert (Hv : In v tied).
    { apply (Permutation_in _ (sort_perm tied)); unfold tied, most_frequent in *.
      rewrite E; now left. }
    apply Htied in Hv; destruct Hv as [Hv Ev].
    repeat split; [assumption | |].
    + intros w; rewrite Ev; apply max_count_bound.
    + intros w Ew. apply (sort_head_least tied t v E).
      apply Htied; split; [|congruence].
      apply count_pos_In. rewrite Ew. apply count_pos_In; assumption.
Qed.

Lemma In_dropna (v : A) (col : list A) :
  In v (dropna col) <-> In v col /\ val_isna v = false.
Proof. unfold dropna; now rewrite filter_In, negb_true_iff. Qed.

Lemma count_filter (p : A -> bool) (v : A) (col : list A) :
  p v = true -> count v (filter p col) = count v col.
Proof.
  intros Hv; unfold count; f_equal.
  induction col as [|x col IH]; simpl; [reflexivity|].
  destruct (p x) eqn:Ex; simpl; rewrite IH; [reflexivity|].
  destruct (val_eqb v x) eqn:E; [|reflexivity].
  apply val_eqb_eq in E; subst; congruence.
Qed.

Lemma count_dropna (v : A) (col : list A) :
  val_isna v = false -> count v (dropna col) = count v col.
Proof. intros Hv; apply count_filter; now rewrite Hv. Qed.

Lemma dropna_all (col : list A) :
  (forall x : A, val_isna x = false) -> dropna col = col.
Proof.
  intros Hall; unfold dropna.
  induction col as [|x col IH]; simpl; [reflexivity|].
  now rewrite Hall, IH.
Qed.

(** [col.mode()[0]] on a column with at least one present cell: a present
    value of highest frequency, and the least such value. *)
Lemma mode_first_spec (col : list A) :
  dropna col <> [] ->
  exists v, first (mode col) = Ok v /\
            In v col /\ val_isna v = false /\
            (forall w, val_isna w = false -> count w col <= count v col) /\
            (forall w, val_isna w = false -> count w col = count v col ->
                       val_leb v w = true).
Proof.
  intros Hne.
  destruct (most_frequent_spec (dropna col) Hne) as (v & E & Hin & Hmax & Hleast).
  apply In_dropna in Hin; destruct Hin as [Hin Hv].
  exists v; split; [exact E|].
  split; [assumption | split; [assumption | split]].
  - intros w Hw; rewrite <- (count_dropna w col Hw), <- (count_dropna v col Hv).
    apply Hmax.
  - intros w Hw Ew; apply Hleast.
    now rewrite (count_dropna w col Hw), (count_dropna v col Hv).
Qed.

(** [col.mode()[0]] on a column without a present cell. *)
Lemma mode_none (col : list A) :
  dropna col = [] -> first (mode col) = Raise LookupError.
Proof. unfold mode; now intros ->. Qed.

Lemma first_mode_present (col : list A) (v : A) :
  first (mode col) = Ok v -> dropna col <> [].
Proof. intros E Hnone; rewrite (mode_none col Hnone) in E; discriminate. Qed.

Lemma insert_by_count_sum (x : A * nat) (l : list (A * nat)) :
  list_sum (map snd (insert_by_count x l)) = snd x + list_sum (map snd l).
Proof.
  induction l as [|y l IH]; simpl; [reflexivity|].
  destruct (snd y <=? snd x); simpl; [reflexivity|].
  rewrite IH; lia.
Qed.

Lemma tally_sum (col : list A) :
  list_sum (map snd (tally col)) = List.length col.
Proof.
  unfold tally.
  rewrite <- (sum_counts (unique col) col (NoDup_unique col)
                (fun x Hx => proj2 (In_unique x col) Hx)).
  induction (unique col) as [|v u IH]; simpl; [reflexivity|].
  now rewrite insert_by_count_sum, IH.
Qed.

(** The frequencies of [value_counts] add up to the number of present
    cells. *)
Lemma value_counts_sum (col : list A) :
  list_sum (map snd (value_counts col)) = List.length (dropna col).
Proof. apply tally_sum. Qed.

Lemma group_sizes_sum (keys : list A) :
  list_sum (map snd (group_sizes keys)) = List.length keys.
Proof.
  unfold group_sizes; rewrite map_map; simpl.
  apply sum_counts.
  - apply (Permutation_NoDup (Permutation_sym (sort_perm _))), NoDup_unique.
  - intros x Hx.
    apply (Permutation_in _ (Permutation_sym (sort_perm _))), In_unique, Hx.
Qed.

(** The sizes of the groups add up to the number of rows with a key. *)
Lemma groupby_size_sum (keys : list A) :
  list_sum (map snd (groupby_size keys)) = List.length (dropna keys).
Proof. apply group_sizes_sum. Qed.

Lemma group_sizes_In (keys : list A) (k : A) (n : nat) :
  In (k, n) (group_sizes keys) <-> In k keys /\ n = count k keys.
Proof.
  unfold group_sizes; rewrite in_map_iff; split.
  - intros (k' & E & Hk'); injection E as -> <-.
    split; [|reflexivity].
    apply In_unique, (Permutation_in _ (sort_perm _)), Hk'.
  - intros [Hk ->]; exists k; split; [reflexivity|].
    apply (Permutation_in _ (Permutation_sym (sort_perm _))), In_unique, Hk.
Qed.

(** The groups: one per distinct present key, its size the number of
    cells with that key. *)
Lemma groupby_size_In (keys : list A) (k : A) (n : nat) :
  In (k, n) (groupby_size keys) <->
  In k keys /\ val_isna k = false /\ n = count k keys.
Proof.
  unfold groupby_size; rewrite group_sizes_In, In_dropna; split.
  - intros [[Hk Hna] ->]; now rewrite count_dropna.
  - intros (Hk & Hna & ->); now rewrite count_dropna.
Qed.

Lemma group_sizes_keys (keys : list A) :
  map fst (group_sizes keys) = sort (unique keys).
Proof. unfold group_sizes; rewrite map_map; simpl; apply map_id. Qed.

Lemma groupby_size_keys_ascending (keys : list A) :
  ascending (map fst (groupby_size keys)) /\ NoDup (map fst (groupby_size keys)).
Proof.
  unfold groupby_size; rewrite group_sizes_keys; split; [apply sort_ascending|].
  apply (Permutation_NoDup (Permutation_sym (sort_perm _))), NoDup_unique.
Qed.

End AggregateFacts.

(** Timestamps, hours and day texts are never missing. *)
Lemma dropna_stamps (col : list Timestamp) : dropna col = col.
Proof. apply dropna_all; reflexivity. Qed.

Lemma dropna_hours (col : list nat) : dropna col = col.
Proof. apply dropna_all; reflexivity. Qed.

Lemma dropna_texts (col : list string) : dropna col = col.
Proof. apply dropna_all; reflexivity. Qed.

(** *** The cells of a sector or offense column *)

Lemma cell_eqb_eq (a b : cell) : cell_eqb a b = true <-> a = b.
Proof.
  destruct a as [|s|x], b as [|t|y]; simpl; try (split; [discriminate | discriminate]);
    try tauto.
  - rewrite String.eqb_eq; split; [now intros -> | now intros [= ->]].
  - rewrite Z.eqb_eq; split; [now intros -> | now intros [= ->]].
Qed.

Lemma cell_eqb_refl (a : cell) : cell_eqb a a = true.
Proof. now apply cell_eqb_eq. Qed.

#[export] Instance OrderedLaws_cell : OrderedLaws cell.
Proof.
  split; simpl.
  - apply cell_eqb_eq.
  - intros [|s|x] [|t|y]; simpl; auto.
    + apply lex_leb_total.
    + rewrite !Z.leb_le; lia.
  - intros [|s|x] [|t|y] [|u|z]; simpl; auto; try discriminate.
    + apply lex_leb_trans.
    + rewrite !Z.leb_le; lia.
  - intros [|s|x] [|t|y]; simpl; try discriminate; auto.
    + intros Hst Hts; f_equal; apply codes_inj; now apply lex_leb_antisym.
    + rewrite !Z.leb_le; intros; f_equal; lia.
Qed.

Lemma existsb_cell_In (v : cell) (selected : list cell) :
  existsb (cell_eqb v) selected = true <-> In v selected.
Proof.
  rewrite existsb_exists; split.
  - intros (x & Hx & E); apply cell_eqb_eq in E; now subst.
  - intros Hv; exists v; split; [assumption | apply cell_eqb_refl].
Qed.

(* ------------------------------------------------------------------ *)
(** ** ISO dates compare as the dates they print *)

Lemma lex_compare_app (a b x y : list nat) :
  List.length a = List.length b ->
  lex_compare (a ++ x) (b ++ y) =
  match lex_compare a b with Eq => lex_compare x y | c => c end.
Proof.
  revert b; induction a as [|h a IH]; intros [|k b]; simpl; try easy.
  intros E; destruct (Nat.compare h k); auto.
Qed.

Lemma zfill_length (w n : nat) : List.length (zfill w n) = w.
Proof.
  revert n; induction w as [|w IH]; intros n; simpl; [reflexivity|].
  rewrite length_app, IH; simpl; lia.
Qed.

Lemma zfill_compare (w n m : nat) :
  n < 10 ^ w -> m < 10 ^ w ->
  lex_compare (zfill w n) (zfill w m) = Nat.compare n m.
Proof.
  revert n m; induction w as [|w IH]; intros n m Hn Hm.
  - simpl in *. assert (n = 0) by lia. assert (m = 0) by lia. now subst.
  - cbn [zfill]. rewrite lex_compare_app by now rewrite !zfill_length.
    rewrite Nat.pow_succ_r' in Hn, Hm.
    rewrite IH by (apply Nat.Div0.div_lt_upper_bound; lia).
    pose proof (Nat.div_mod_eq n 10) as En.
    pose proof (Nat.div_mod_eq m 10) as Em.
    pose proof (Nat.mod_upper_bound n 10) as Bn.
    pose proof (Nat.mod_upper_bound m 10) as Bm.
    cbn [lex_compare].
    destruct (Nat.compare_spec (n / 10) (m / 10)) as [Eq | Lt | Gt].
    + destruct (Nat.compare_spec (48 + n mod 10) (48 + m mod 10)).
      * symmetry; apply Nat.compare_eq_iff; lia.
      * symmetry; apply Nat.compare_lt_iff; lia.
      * symmetry; apply Nat.compare_gt_iff; lia.
    + symmetry; apply Nat.compare_lt_iff; lia.
    + symmetry; apply Nat.compare_gt_iff; lia.
Qed.

Lemma zfill_bytes (w n : nat) : Forall (fun c => c < 256) (zfill w n).
Proof.
  revert n; induction w as [|w IH]; intros n; cbn [zfill]; [constructor|].
  apply Forall_app; split; [apply IH|].
  constructor; [|constructor].
  pose proof (Nat.mod_upper_bound n 10); lia.
Qed.

Lemma codes_string_of_codes (l : list nat) :
  Forall (fun c => c < 256) l -> codes (string_of_codes l) = l.
Proof.
  unfold codes, string_of_codes; rewrite list_ascii_of_string_of_list_ascii.
  induction 1 as [|c l Hc Hl IH]; simpl; [reflexivity|].
  now rewrite nat_ascii_embedding, IH.
Qed.

Lemma codes_isoformat (d : Date) : codes (isoformat d) = iso_codes d.
Proof.
  assert (Hdash : Forall (fun c => c < 256) [45])
    by (constructor; [lia | constructor]).
  apply codes_string_of_codes; unfold iso_codes.
  apply Forall_app; split; [apply zfill_bytes|].
  apply Forall_app; split; [exact Hdash|].
  apply Forall_app; split; [apply zfill_bytes|].
  apply Forall_app; split; [exact Hdash | apply zfill_bytes].
Qed.

Lemma days_in_month_le (y m : nat) : days_in_month y m <= 31.
Proof.
  unfold days_in_month; destruct (is_leap y);
    do 12 (destruct m as [|m]; [lia|]); lia.
Qed.

Lemma valid_date_bounds (d : Date) :
  valid_date d = true -> d_year d < 10 ^ 4 /\ d_month d < 10 ^ 2 /\ d_dom d < 10 ^ 2.
Proof.
  unfold valid_date; rewrite !andb_true_iff, !Nat.leb_le, Nat.ltb_lt.
  intros [[[[[_ Hy] _] Hm] _] Hd].
  pose proof (days_in_month_le (d_year d) (d_month d)) as Hdim.
  change (10 ^ 4) with (100 * 100); change (10 ^ 2) with 100; lia.
Qed.

(** On calendar dates, the order of the [YYYY-MM-DD] strings is the
    chronological order. *)
Lemma iso_compare (a b : Date) :
  valid_date a = true -> valid_date b = true ->
  lex_compare (codes (isoformat a)) (codes (isoformat b)) =
  lex_compare (date_fields a) (date_fields b).
Proof.
  intros Ha Hb.
  destruct (valid_date_bounds a Ha) as (Hya & Hma & Hda).
  destruct (valid_date_bounds b Hb) as (Hyb & Hmb & Hdb).
  rewrite !codes_isoformat; unfold iso_codes, date_fields.
  rewrite lex_compare_app by now rewrite !zfill_length.
  rewrite zfill_compare by assumption.
  rewrite (lex_compare_app [45] [45]) by reflexivity.
  rewrite lex_compare_refl.
  rewrite lex_compare_app by now rewrite !zfill_length.
  rewrite zfill_compare by assumption.
  rewrite (lex_compare_app [45] [45]) by reflexivity.
  rewrite lex_compare_refl.
  rewrite zfill_compare by assumption.
  cbn [lex_compare].
  destruct (Nat.compare (d_year a) (d_year b)); try reflexivity.
  destruct (Nat.compare (d_month a) (d_month b)); try reflexivity.
  destruct (Nat.compare (d_dom a) (d_dom b)); reflexivity.
Qed.

Lemma str_leb_isoformat (a b : Date) :
  valid_date a = true -> valid_date b = true ->
  str_leb (isoformat a) (isoformat b) = date_leb a b.
Proof.
  intros Ha Hb; unfold str_leb, date_leb, lex_leb; now rewrite iso_compare.
Qed.

Lemma eqb_isoformat (a b : Date) :
  valid_date a = true -> valid_date b = true ->
  (String.eqb (isoformat a) (isoformat b) = true <-> a = b).
Proof.
  intros Ha Hb; rewrite String.eqb_eq; split; [|now intros ->].
  intros E. apply date_fields_inj, lex_compare_eq.
  rewrite <- iso_compare by assumption. rewrite E; apply lex_compare_refl.
Qed.

Lemma date_leb_le (a b : Date) : date_leb a b = true <-> date_le a b.
Proof.
  unfold date_leb, lex_leb, date_le, date_fields; cbn [lex_compare].
  destruct (Nat.compare_spec (d_year a) (d_year b));
    [|split; [lia | reflexivity] | split; [discriminate | lia]].
  destruct (Nat.compare_spec (d_month a) (d_month b));
    [|split; [lia | reflexivity] | split; [discriminate | lia]].
  destruct (Nat.compare_spec (d_dom a) (d_dom b)); split; try lia;
    try reflexivity; discriminate.
Qed.

(* ------------------------------------------------------------------ *)
(** ** Masks select rows *)

Lemma loc_map_rows (df : DataFrame) (p : Row -> bool) :
  rows (loc df (map p (rows df))) = filter p (rows df).
Proof.
  unfold loc; simpl.
  induction (rows df) as [|r l IH]; simpl; [reflexivity|].
  destruct (p r); simpl; now rewrite IH.
Qed.

Lemma filter_all {X} (p : X -> bool) (l : list X) :
  (forall x, In x l -> p x = true) -> filter p l = l.
Proof.
  induction l as [|x l IH]; intros Hall; simpl; [reflexivity|].
  rewrite (Hall x) by now left.
  f_equal; apply IH; intros y Hy; apply Hall; now right.
Qed.

Lemma filter_none {X} (p : X -> bool) (l : list X) :
  (forall x, In x l -> p x = false) -> filter p l = [].
Proof.
  induction l as [|x l IH]; intros Hall; simpl; [reflexivity|].
  rewrite (Hall x) by now left.
  apply IH; intros y Hy; apply Hall; now right.
Qed.

Lemma filter_map_swap {X Y} (f : X -> Y) (p : Y -> bool) (l : list X) :
  filter p (map f l) = map f (filter (fun x => p (f x)) l).
Proof.
  induction l as [|x l IH]; simpl; [reflexivity|].
  destruct (p (f x)); simpl; now rewrite IH.
Qed.

Lemma mask_and_map {X} (p q : X -> bool) (l : list X) :
  mask_and (map p l) (map q l) = map (fun x => p x && q x) l.
Proof.
  unfold mask_and; induction l as [|x l IH]; simpl; [reflexivity|].
  now rewrite IH.
Qed.

Lemma repeat_true_map {X} (l : list X) :
  repeat true (List.length l) = map (fun _ => true) l.
Proof. induction l; simpl; congruence. Qed.

Lemma isin_map (selected : list cell) (f : Row -> cell) (l : list Row) :
  isin selected (map f l) = map (fun r => existsb (cell_eqb (f r)) selected) l.
Proof. unfold isin; now rewrite map_map. Qed.

Lemma date_mask_test (dates : DateInput) (df : DataFrame) :
  has_label "day" (columns df) = true ->
  date_mask dates df = Ok (map (fun r => date_test dates (day r)) (rows df)).
Proof.
  intros Hday.
  assert (Hget : getitem "day" day df = Ok (map day (rows df)))
    by (unfold getitem; now rewrite Hday).
  destruct dates as [d0 | [|d0 [|d1 [|d2 ds]]]]; unfold date_mask, day_equals;
    rewrite ?Hget; cbn [bind date_test]; rewrite ?map_map, ?mask_and_map;
    try reflexivity; now rewrite repeat_true_map.
Qed.

(* ------------------------------------------------------------------ *)
(** ** The loader *)


Lemma to_datetime_parsed (parse : string -> option Timestamp) (cells : list string)
      (stamps : list Timestamp) :
  to_datetime parse cells = Ok stamps ->
  Forall2 (fun c t => parse c = Some t) cells stamps.
Proof.
  unfold to_datetime; revert stamps; induction cells as [|c cells IH]; intros stamps; simpl.
  - intros E; injection E as <-; constructor.
  - destruct (parse c) eqn:Ec; [|discriminate].
    destruct (mapM _ cells) as [ts|]; [|discriminate].
    intros E; injection E as <-; constructor; auto.
Qed.

Lemma to_datetime_rejects (parse : string -> option Timestamp) (cells : list string)
      (c : string) :
  In c cells -> parse c = None -> to_datetime parse cells = Raise ValueError.
Proof.
  unfold to_datetime; induction cells as [|c' cells IH]; simpl; [easy|].
  intros [-> | Hin] Hc.
  - now rewrite Hc.
  - destruct (parse c'); [|reflexivity]. now rewrite IH.
Qed.

Lemma has_label_with_label (c c' : string) (cols : list string) :
  has_label c (with_label c' cols) = has_label c cols || String.eqb c c'.
Proof.
  unfold with_label; destruct (has_label c' cols) eqn:E.
  - destruct (String.eqb c c') eqn:Ecc; [|now rewrite orb_false_r].
    apply String.eqb_eq in Ecc; subst; now rewrite E.
  - unfold has_label; rewrite existsb_app; simpl; now rewrite orb_false_r.
Qed.

Lemma derive_rows_Forall2 (parse : string -> option Timestamp)
      (raws : list RawRow) (stamps : list Timestamp) :
  Forall2 (fun c t => parse c = Some t) (map raw_date raws) stamps ->
  Forall2 (fun r row =>
             parse (raw_date r) = Some (date row) /\
             hour row = ts_hour (date row) /\
             day row = isoformat (ts_date (date row)) /\
             zone row = raw_zone r /\ crime_type row = raw_crime_type r /\
             latitude row = raw_latitude r /\ longitude row = raw_longitude r)
          raws (map (fun p => derive (fst p) (snd p)) (combine raws stamps)).
Proof.
  revert stamps; induction raws as [|r raws IH]; intros stamps Hp;
    inversion Hp; subst; simpl; constructor; auto.
  simpl; repeat split; assumption.
Qed.

Lemma process_spec (parse : string -> option Timestamp) (raw : RawFrame) (df : DataFrame) :
  process parse raw = Ok df ->
  derived_columns df /\
  (forall c, has_label c (raw_columns raw) = true -> has_label c (columns df) = true) /\
  Forall2 (fun r row =>
             parse (raw_date r) = Some (date row) /\
             hour row = ts_hour (date row) /\
             day row = isoformat (ts_date (date row)) /\
             zone row = raw_zone r /\ crime_type row = raw_crime_type r /\
             latitude row = raw_latitude r /\ longitude row = raw_longitude r)
          (raw_rows raw) (rows df).
Proof.
  unfold process, raw_getitem.
  destruct (has_label "date" (raw_columns raw)) eqn:Hdate; [|discriminate].
  cbn [bind].
  destruct (to_datetime parse (map raw_date (raw_rows raw))) as [stamps|] eqn:Ets;
    [|discriminate].
  cbn [bind]; intros E; injection E as <-.
  pose proof (derive_rows_Forall2 parse _ _ (to_datetime_parsed _ _ _ Ets)) as Hrows.
  split; [|split].
  - unfold derived_columns; cbn [columns rows].
    rewrite !has_label_with_label, Hdate; repeat split; try reflexivity.
    + now rewrite orb_true_r.
    + rewrite String.eqb_refl; now rewrite orb_true_r.
    + clear - Hrows. induction Hrows; constructor; intuition.
  - intros c Hc; cbn [columns]. rewrite !has_label_with_label, Hc; reflexivity.
  - exact Hrows.
Qed.

Lemma load_data_frame (parse : string -> option Timestamp) (fs : FileSystem) :
  fst (load_data parse fs) = Ok empty_frame \/
  exists raw df, fst (read_source fs) = Ok raw /\ process parse raw = Ok df /\
                 fst (load_data parse fs) = Ok df.
Proof.
  unfold load_data, load_body.
  destruct (read_source fs) as [[raw|e] log]; cbn [bind fst try_except]; [|now left].
  destruct (process parse raw) as [df|e] eqn:E; cbn [try_except]; [|now left].
  right; now exists raw, df.
Qed.


Lemma read_source_missing (fs : FileSystem) :
  fs primary_path = Raise FileNotFoundError ->
  read_source fs = (fs fallback_path, [primary_path; fallback_path]).
Proof. unfold read_source; now intros ->. Qed.

Lemma read_source_found (fs : FileSystem) :
  fs primary_path <> Raise FileNotFoundError ->
  read_source fs = (fs primary_path, [primary_path]).
Proof.
  unfold read_source; destruct (fs primary_path) as [raw|[]]; try reflexivity.
  now intros [].
Qed.

Lemma load_data_unfold (parse : string -> option Timestamp) (fs : FileSystem) :
  fst (load_data parse fs) =
  try_except (fst (load_body parse fs)) (fun _ => Ok empty_frame).
Proof.
  unfold load_data; now destruct (load_body parse fs).
Qed.

(** C10.  [load_data] returns a value for every file system and every
    cell parser: it never raises, and whenever its body raises (file
    missing, file unreadable, no [date] column, a date that does not
    parse) the value is the empty frame [pd.DataFrame()]. *)
Theorem load_data_total (parse : string -> option Timestamp) (fs : FileSystem) :
  (exists df, fst (load_data parse fs) = Ok df) /\
  (forall e, fst (load_body parse fs) = Raise e ->
             fst (load_data parse fs) = Ok empty_frame) /\
  (forall df, fst (load_body parse fs) = Ok df -> fst (load_data parse fs) = Ok df).
Proof.
  rewrite load_data_unfold.
  destruct (fst (load_body parse fs)) as [df|e]; cbn [try_except]; repeat split.
  - now exists df.
  - discriminate.
  - auto.
  - now exists empty_frame.
  - discriminate.
Qed.

Lemma load_data_total_witness :
  fst (load_body iso_datetime (only_primary corrupt_csv)) = Raise ValueError /\
  fst (load_data iso_datetime (only_primary corrupt_csv)) = Ok empty_frame.
Proof.
  split; [vm_compute; reflexivity|].
  apply (proj1 (proj2 (load_data_total iso_datetime (only_primary corrupt_csv))) ValueError).
  vm_compute; reflexivity.
Defined.

(** C1, as the code has it.  When the file is missing at both candidate
    paths, when [pd.read_csv] raises on the file it finds, and when the
    file is read but has no [date] column or holds a date that does not
    parse, [load_data] returns the empty frame [pd.DataFrame()] as an
    ordinary value: nothing is raised, and the three cases give the same
    result. *)
Theorem load_failure_yields_empty_frame
        (parse : string -> option Timestamp) (fs : FileSystem) :
  (fs primary_path = Raise FileNotFoundError /\
   fs fallback_path = Raise FileNotFoundError) \/
  (exists e, fst (read_source fs) = Raise e) \/
  (exists raw, fst (read_source fs) = Ok raw /\
               (has_label "date" (raw_columns raw) = false \/
                exists r, In r (raw_rows raw) /\ parse (raw_date r) = None)) ->
  fst (load_data parse fs) = Ok empty_frame.
Proof.
  intros Hcase.
  rewrite load_data_unfold; unfold load_body.
  destruct Hcase as [[Hp Hf] | [[e He] | (raw & Hraw & Hbad)]].
  - rewrite (read_source_missing fs Hp), Hf; reflexivity.
  - destruct (read_source fs) as [r log]; cbn [fst] in *; subst r; reflexivity.
  - destruct (read_source fs) as [r log]; cbn [fst] in *; subst r; cbn [bind].
    unfold process, raw_getitem.
    destruct Hbad as [Hcol | (r & Hr & Hparse)].
    + rewrite Hcol; reflexivity.
    + destruct (has_label "date" (raw_columns raw)); [|reflexivity].
      cbn [bind].
      rewrite (to_datetime_rejects parse _ (raw_date r)); auto.
      now apply in_map.
Qed.

Lemma load_failure_yields_empty_frame_witness :
  fst (load_data iso_datetime nothing_on_disk) = Ok empty_frame.
Proof.
  apply load_failure_yields_empty_frame.
  left; split; reflexivity.
Defined.

(** C1, as the specification states it, fails: with no file at either
    path, and with a file whose second date does not parse, the loader
    raises nothing and reports the empty frame as its result. *)
Lemma load_failure_not_raised :
  (nothing_on_disk primary_path = Raise FileNotFoundError /\
   nothing_on_disk fallback_path = Raise FileNotFoundError /\
   fst (load_data iso_datetime nothing_on_disk) = Ok empty_frame /\
   ~ (exists e, fst (load_data iso_datetime nothing_on_disk) = Raise e)) /\
  (only_primary corrupt_csv primary_path = Ok corrupt_csv /\
   iso_datetime "not a date" = None /\
   fst (load_data iso_datetime (only_primary corrupt_csv)) = Ok empty_frame /\
   ~ (exists e, fst (load_data iso_datetime (only_primary corrupt_csv)) = Raise e)).
Proof.
  split; (split; [reflexivity|]); (split; [vm_compute; reflexivity|]);
    (split; [vm_compute; reflexivity|]); intros [e He]; vm_compute in He; discriminate.
Qed.



(* ------------------------------------------------------------------ *)
(** ** The sidebar filter *)

Lemma df_empty_rows (df : DataFrame) :
  has_label "day" (columns df) = true ->
  df_empty df = match rows df with [] => true | _ => false end.
Proof.
  unfold df_empty; destruct (columns df); [discriminate|].
  now destruct (rows df).
Qed.

Lemma column_min_ok (col : list Timestamp) :
  col <> [] -> exists t, column_min col = Ok t.
Proof. destruct col; [congruence | intros _; eexists; reflexivity]. Qed.

Lemma column_max_ok (col : list Timestamp) :
  col <> [] -> exists t, column_max col = Ok t.
Proof. destruct col; [congruence | intros _; eexists; reflexivity]. Qed.

(** What the sidebar does on a frame that [load_data] built and that
    has rows. *)
Lemma sidebar_loaded (df : DataFrame) (ui : Criteria) :
  derived_columns df -> rows df <> [] ->
  (exists side,
      sidebar df ui = Ok (side, loc df (map (row_test ui) (rows df))) /\
      forallb is_sidebar_widget side = true /\
      has_label "zone" (columns df) = true /\
      has_label "crime_type" (columns df) = true) \/
  (sidebar df ui = Raise (KeyError "zone") /\
   has_label "zone" (columns df) = false) \/
  (sidebar df ui = Raise (KeyError "crime_type") /\
   has_label "crime_type" (columns df) = false).
Proof.
  intros (Hdate & Hhour & Hday & Hrows) Hne.
  unfold sidebar.
  rewrite (df_empty_rows df Hday).
  destruct (rows df) as [|r0 rs] eqn:Erows; [congruence|]; cbn [negb].
  rewrite <- Erows.
  rewrite (date_mask_test (dates ui) df Hday).
  unfold getitem; rewrite Hdate; cbn [bind].
  destruct (column_min_ok (map date (rows df))) as (lo & ->);
    [rewrite Erows; discriminate|].
  destruct (column_max_ok (map date (rows df))) as (hi & ->);
    [rewrite Erows; discriminate|].
  cbn [bind].
  destruct (has_label "zone" (columns df)) eqn:Hz; cbn [bind];
    [|right; left; auto].
  destruct (has_label "crime_type" (columns df)) eqn:Hc; cbn [bind];
    [|right; right; auto].
  left; eexists; split.
  { rewrite !isin_map, !mask_and_map; reflexivity. }
  split; [reflexivity | auto].
Qed.

Lemma sidebar_empty (df : DataFrame) (ui : Criteria) :
  df_empty df = true -> sidebar df ui = Ok ([SidebarTitle], empty_frame).
Proof. unfold sidebar; now intros ->. Qed.

Lemma main_area_sidebar (side page : list element) :
  forallb is_sidebar_widget side = true ->
  main_area (side ++ page) = main_area page.
Proof.
  unfold main_area; induction side as [|e side IH]; simpl; [reflexivity|].
  rewrite andb_true_iff; intros [He Hs].
  destruct e; try discriminate; auto.
Qed.

Lemma load_data_derived (parse : string -> option Timestamp) (fs : FileSystem)
      (df : DataFrame) :
  fst (load_data parse fs) = Ok df -> df = empty_frame \/ derived_columns df.
Proof.
  intros E; destruct (load_data_frame parse fs) as [E0 | (raw & df' & _ & Hp & E')].
  - left; congruence.
  - right; rewrite E in E'; injection E' as ->.
    apply (process_spec parse raw df' Hp).
Qed.

Lemma derived_df_empty (df : DataFrame) :
  derived_columns df -> (df_empty df = true <-> rows df = []).
Proof.
  intros (_ & _ & Hday & _); rewrite (df_empty_rows df Hday).
  destruct (rows df); split; congruence.
Qed.

(** [s.mode()[0]] succeeds on a column with a present cell. *)
Lemma first_mode_ok {A} `{OrderedLaws A} (col : list A) :
  dropna col <> [] -> exists v, first (mode col) = Ok v.
Proof.
  intros Hne; destruct (mode_first_spec col Hne) as (v & Hv & _); eauto.
Qed.

Lemma dashboard_ok (view : DataFrame) :
  dropna (map zone (rows view)) <> [] ->
  dropna (map crime_type (rows view)) <> [] ->
  rows view <> [] ->
  has_label "zone" (columns view) = true ->
  has_label "crime_type" (columns view) = true ->
  has_label "hour" (columns view) = true ->
  has_label "date" (columns view) = true ->
  exists risk_zone primary_code peak_h,
    first (mode (map zone (rows view))) = Ok risk_zone /\
    first (mode (map crime_type (rows view))) = Ok primary_code /\
    first (mode (map hour (rows view))) = Ok peak_h /\
    dashboard view =
    Ok [KpiCard "TOTAL INCIDENTS" (Count (List.length (rows view)));
        KpiCard "HIGH RISK SECTOR" (Text risk_zone);
        KpiCard "PRIMARY OFFENSE" (Text primary_code);
        KpiCard "PEAK ACTIVITY" (HourOfDay peak_h);
        DeckChart (rows view);
        BarChart (value_counts (map crime_type (rows view)));
        AreaChart (groupby_size (map date (rows view)))].
Proof.
  intros Pz Pc Hne Hz Hc Hh Hd.
  assert (Ph : dropna (map hour (rows view)) <> [])
    by (rewrite dropna_hours; destruct (rows view); [congruence | discriminate]).
  destruct (first_mode_ok (map zone (rows view)) Pz) as (z & Ez).
  destruct (first_mode_ok (map crime_type (rows view)) Pc) as (c & Ec).
  destruct (first_mode_ok (map hour (rows view)) Ph) as (h & Eh).
  exists z, c, h; repeat split; try assumption.
  unfold dashboard, getitem; rewrite Hz, Hc, Hh, Hd; cbn [bind].
  rewrite Ez; cbn [bind]; rewrite Ec; cbn [bind]; rewrite Eh; reflexivity.
Qed.

(* ------------------------------------------------------------------ *)
(** ** One run of the script *)

Lemma app_unfold (parse : string -> option Timestamp) (fs : FileSystem) (ui : Criteria)
      (df : DataFrame) :
  fst (load_data parse fs) = Ok df ->
  app parse fs ui =
  match sidebar df ui with
  | Raise e => Crashed e
  | Ok (side, filtered_df) => after_sidebar side (main filtered_df)
  end.
Proof. unfold app; now intros ->. Qed.

Lemma main_no_rows (view : DataFrame) :
  rows view = [] -> main view = Stopped [PageTitle; ErrorBox offline_msg].
Proof.
  unfold main, df_empty; intros ->; now destruct (columns view).
Qed.

Lemma app_empty_view (parse : string -> option Timestamp) (fs : FileSystem)
      (ui : Criteria) (df : DataFrame) (side : list element) (view : DataFrame) :
  fst (load_data parse fs) = Ok df ->
  sidebar df ui = Ok (side, view) ->
  rows view = [] ->
  app parse fs ui = Stopped (side ++ [PageTitle; ErrorBox offline_msg]).
Proof.
  intros Hload Hside Hrows.
  rewrite (app_unfold parse fs ui df Hload), Hside, (main_no_rows view Hrows).
  reflexivity.
Qed.

(** [filtered_df], for a frame that came out of [load_data]. *)
Lemma sidebar_rows (parse : string -> option Timestamp) (fs : FileSystem)
      (ui : Criteria) (df : DataFrame) (side : list element) (view : DataFrame) :
  fst (load_data parse fs) = Ok df ->
  sidebar df ui = Ok (side, view) ->
  rows view = filter (row_test ui) (rows df) /\
  forallb is_sidebar_widget side = true /\
  (rows df <> [] -> columns view = columns df /\
                    has_label "zone" (columns df) = true /\
                    has_label "crime_type" (columns df) = true).
Proof.
  intros Hload Hside.
  destruct (load_data_derived parse fs df Hload) as [-> | Hd].
  - rewrite sidebar_empty in Hside by reflexivity.
    injection Hside as <- <-.
    split; [reflexivity | split; [reflexivity | intros Hn; now elim Hn]].
  - destruct (rows df) as [|r0 rs] eqn:Erows.
    + rewrite sidebar_empty in Hside by (now apply derived_df_empty).
      injection Hside as <- <-.
      split; [reflexivity | split; [reflexivity | intros Hn; now elim Hn]].
    + assert (Hne : rows df <> []) by (rewrite Erows; discriminate).
      destruct (sidebar_loaded df ui Hd Hne)
        as [(side' & E & Hw & Hz & Hc) | [[E _] | [E _]]];
        rewrite E in Hside; try discriminate.
      injection Hside as <- <-.
      rewrite loc_map_rows, Erows; repeat split; auto.
Qed.

Lemma row_test_no_zone (ui : Criteria) (l : list Row) :
  zones ui = [] \/ crimes ui = [] -> filter (row_test ui) l = [].
Proof.
  intros Hsel; induction l as [|r l IH]; simpl; [reflexivity|].
  replace (row_test ui r) with false; [assumption|].
  unfold row_test; destruct Hsel as [-> | ->]; simpl;
    now rewrite ?andb_false_r.
Qed.

Lemma filter_In_test (ui : Criteria) (l : list Row) (r : Row) :
  In r (filter (row_test ui) l) <->
  In r l /\ date_test (dates ui) (day r) = true /\
  In (zone r) (zones ui) /\ In (crime_type r) (crimes ui).
Proof.
  rewrite filter_In; unfold row_test.
  rewrite !andb_true_iff, !existsb_cell_In; tauto.
Qed.

(** C3.  The date part of the mask, on a frame with a [day] column.  One
    date (alone or as a 1-tuple): a row matches iff its [day] is that
    date's text.  A pair: a row matches iff [start <= day <= end], both
    ends included.  An empty tuple: every row matches.  On calendar dates
    the comparison of the texts is the comparison of the dates.  With a
    pair, no row outside the range is in the filtered frame. *)
Theorem date_predicate (df : DataFrame) :
  has_label "day" (columns df) = true ->
  (forall d0,
      date_mask (OneDate d0) df
      = Ok (map (fun r => String.eqb (day r) (isoformat d0)) (rows df)) /\
      date_mask (DateTuple [d0]) df
      = Ok (map (fun r => String.eqb (day r) (isoformat d0)) (rows df))) /\
  (forall start_d end_d,
      date_mask (DateTuple [start_d; end_d]) df
      = Ok (map (fun r => str_leb (isoformat start_d) (day r) &&
                          str_leb (day r) (isoformat end_d)) (rows df))) /\
  date_mask (DateTuple []) df = Ok (map (fun _ => true) (rows df)) /\
  (forall start_d end_d d,
      valid_date start_d = true -> valid_date end_d = true -> valid_date d = true ->
      (String.eqb (isoformat d) (isoformat start_d) = true <-> d = start_d) /\
      (str_leb (isoformat start_d) (isoformat d) &&
       str_leb (isoformat d) (isoformat end_d) = true <->
       date_le start_d d /\ date_le d end_d)) /\
  (forall parse fs ui side view start_d end_d,
      fst (load_data parse fs) = Ok df ->
      dates ui = DateTuple [start_d; end_d] ->
      sidebar df ui = Ok (side, view) ->
      forall r, In r (rows view) ->
                In r (rows df) /\
                str_leb (isoformat start_d) (day r) = true /\
                str_leb (day r) (isoformat end_d) = true).
Proof.
  intros Hday.
  split; [|split; [|split; [|split]]].
  - intros d0; split; now rewrite date_mask_test.
  - intros s e; now rewrite date_mask_test.
  - now rewrite date_mask_test.
  - intros s e d Hs He Hd; split.
    + now apply eqb_isoformat.
    + rewrite !str_leb_isoformat, andb_true_iff, !date_leb_le by assumption.
      reflexivity.
  - intros parse fs ui side view s e Hload Hdates Hside r Hr.
    rewrite (proj1 (sidebar_rows parse fs ui df side view Hload Hside)) in Hr.
    apply filter_In_test in Hr. destruct Hr as (Hin & Ht & _).
    rewrite Hdates in Ht; cbn [date_test] in Ht.
    apply andb_true_iff in Ht; tauto.
Qed.

Lemma date_predicate_witness :
  date_mask (DateTuple [mkDate 2024 1 2; mkDate 2024 1 31]) sample_df
  = Ok [false; false; true] /\
  date_mask (DateTuple [mkDate 2024 1 1]) sample_df = Ok [true; true; false] /\
  date_mask (OneDate (mkDate 2024 1 2)) sample_df = Ok [false; false; true] /\
  date_mask (DateTuple []) sample_df = Ok [true; true; true].
Proof.
  pose proof (date_predicate sample_df eq_refl) as (Hone & Hpair & Hnone & _).
  split; [|split; [|split]].
  - rewrite Hpair; vm_compute; reflexivity.
  - rewrite (proj2 (Hone _)); vm_compute; reflexivity.
  - rewrite (proj1 (Hone _)); vm_compute; reflexivity.
  - rewrite Hnone; reflexivity.
Defined.

Lemma date_test_condition (dates : DateInput) (d : string) :
  date_test dates d = true <-> date_condition dates d.
Proof.
  destruct dates as [d0 | [|d0 [|d1 [|d2 ds]]]]; cbn [date_test date_condition];
    rewrite ?String.eqb_eq, ?andb_true_iff; tauto.
Qed.

Lemma scenario_sidebar (c1 c2 c3 : nat * nat * nat) :
  exists side, sidebar (scenario_df c1 c2 c3) scenario_ui
               = Ok (side, scenario_view c1 c2 c3).
Proof.
  assert (Hd : derived_columns (scenario_df c1 c2 c3))
    by (repeat split; try reflexivity; repeat constructor).
  assert (Hne : rows (scenario_df c1 c2 c3) <> []) by discriminate.
  destruct (sidebar_loaded (scenario_df c1 c2 c3) scenario_ui Hd Hne)
    as [(side & E & _) | [[_ E] | [_ E]]].
  - exists side; rewrite E; reflexivity.
  - vm_compute in E; discriminate.
  - vm_compute in E; discriminate.
Qed.

Lemma group_sizes_twice {A} `{OrderedLaws A} (k : A) :
  group_sizes [k; k] = [(k, 2)].
Proof.
  unfold group_sizes, count; cbn [unique filter].
  rewrite val_eqb_refl; cbn [negb filter sort insert map].
  now rewrite val_eqb_refl.
Qed.

(** C4, as the code has it.  A row of the loaded frame is in the filtered
    frame iff its [day] meets the date choice, its [zone] is among the
    selected sectors and its [crime_type] among the selected offenses;
    the filtered frame keeps the order of the loaded one.  In the scenario
    of section 8, whatever the times of day, the filtered frame is the
    first two incidents, the total is 2 and the primary offense is
    "theft"; the trend series is keyed by the timestamps of the
    incidents, its counts add up to 2, and it is the single entry with
    count 2 when the two incidents carry the same timestamp. *)
Theorem filtered_view_membership :
  (forall parse fs ui df side view,
      fst (load_data parse fs) = Ok df ->
      sidebar df ui = Ok (side, view) ->
      rows view = filter (row_test ui) (rows df) /\
      forall r, In r (rows view) <->
                In r (rows df) /\
                date_condition (dates ui) (day r) /\
                In (zone r) (zones ui) /\
                In (crime_type r) (crimes ui)) /\
  (forall c1 c2 c3,
      (exists side, sidebar (scenario_df c1 c2 c3) scenario_ui
                    = Ok (side, scenario_view c1 c2 c3)) /\
      List.length (rows (scenario_view c1 c2 c3)) = 2 /\
      first (mode (map crime_type (rows (scenario_view c1 c2 c3)))) = Ok (Str "theft") /\
      list_sum (map snd (groupby_size (map date (rows (scenario_view c1 c2 c3))))) = 2 /\
      groupby_size (map date (rows (scenario_view c1 c1 c3)))
      = [(at_time (mkDate 2024 1 1) c1, 2)]).
Proof.
  split.
  - intros parse fs ui df side view Hload Hside.
    destruct (sidebar_rows parse fs ui df side view Hload Hside) as (Hrows & _).
    split; [assumption|].
    intros r; rewrite Hrows, filter_In_test, date_test_condition; reflexivity.
  - intros c1 c2 c3.
    split; [apply scenario_sidebar|].
    split; [reflexivity|].
    split; [vm_compute; reflexivity|].
    split; [now rewrite groupby_size_sum, dropna_stamps|].
    unfold groupby_size; rewrite dropna_stamps; apply group_sizes_twice.
Qed.

Lemma filtered_view_membership_witness :
  rows (loc sample_df [false; false; false]) = filter (row_test no_sector) (rows sample_df).
Proof.
  apply (proj1 filtered_view_membership iso_datetime (only_primary sample_csv)
           no_sector sample_df sample_widgets (loc sample_df [false; false; false])).
  - vm_compute; reflexivity.
  - vm_compute; reflexivity.
Defined.

Lemma dashboard_inv (view : DataFrame) (els : list element) :
  dashboard view = Ok els ->
  exists risk_zone primary_code peak_h,
    first (mode (map zone (rows view))) = Ok risk_zone /\
    first (mode (map crime_type (rows view))) = Ok primary_code /\
    first (mode (map hour (rows view))) = Ok peak_h /\
    els = [KpiCard "TOTAL INCIDENTS" (Count (List.length (rows view)));
           KpiCard "HIGH RISK SECTOR" (Text risk_zone);
           KpiCard "PRIMARY OFFENSE" (Text primary_code);
           KpiCard "PEAK ACTIVITY" (HourOfDay peak_h);
           DeckChart (rows view);
           BarChart (value_counts (map crime_type (rows view)));
           AreaChart (groupby_size (map date (rows view)))].
Proof.
  unfold dashboard, getitem.
  destruct (has_label "zone" (columns view)); cbn [bind]; [|discriminate].
  destruct (first (mode (map zone (rows view)))) as [z|]; cbn [bind]; [|discriminate].
  destruct (has_label "crime_type" (columns view)); cbn [bind]; [|discriminate].
  destruct (first (mode (map crime_type (rows view)))) as [c|]; cbn [bind]; [|discriminate].
  destruct (has_label "hour" (columns view)); cbn [bind]; [|discriminate].
  destruct (first (mode (map hour (rows view)))) as [h|]; cbn [bind]; [|discriminate].
  destruct (has_label "date" (columns view)); cbn [bind]; [|discriminate].
  intros E; injection E as <-; now exists z, c, h.
Qed.

Lemma dashboard_charts (view : DataFrame) (els : list element) :
  dashboard view = Ok els ->
  (forall n label, In (KpiCard label (Count n)) els -> n = List.length (rows view)) /\
  (forall counts, In (BarChart counts) els ->
                  counts = value_counts (map crime_type (rows view))) /\
  (forall trend, In (AreaChart trend) els ->
                 trend = groupby_size (map date (rows view))).
Proof.
  intros E; destruct (dashboard_inv view els E) as (z & c & h & _ & _ & _ & ->).
  repeat split; intros; simpl in *;
    repeat match goal with
           | H : _ \/ _ |- _ => destruct H as [H | H]
           | H : False |- _ => destruct H
           end; try discriminate; congruence.
Qed.

Lemma strictly_ascending {A} `{OrderedLaws A} (l : list A) :
  ascending l -> NoDup l ->
  StronglySorted (fun a b => val_leb a b = true /\ a <> b) l.
Proof.
  unfold ascending; induction 1 as [|x l Hl IH Hx]; intros Hnd; constructor.
  - apply IH; now inversion Hnd.
  - inversion Hnd as [|? ? Hnotin _]; subst.
    rewrite Forall_forall in *; intros y Hy; split; [auto|].
    intros ->; contradiction.
Qed.

Lemma mode_least_most_frequent {A} `{OrderedLaws A} (col : list A) :
  dropna col <> [] -> exists v, first (mode col) = Ok v /\ least_most_frequent v col.
Proof.
  intros Hne; destruct (mode_first_spec col Hne) as (v & E & Hin & Hv & Hmax & Hleast).
  exists v; split; [assumption|].
  unfold least_most_frequent; auto.
Qed.

(** C4, as the specification states it, fails on its scenario when the
    first two incidents happen at different times of the same day: the
    trend series then has one entry per timestamp, each with count 1,
    and is not the single entry "2024-01-01" with count 2. *)
Lemma scenario_trend_not_daily :
  (exists side,
      sidebar (scenario_df (10, 0, 0) (11, 30, 0) (9, 15, 0)) scenario_ui
      = Ok (side, scenario_view (10, 0, 0) (11, 30, 0) (9, 15, 0))) /\
  exists els trend,
    dashboard (scenario_view (10, 0, 0) (11, 30, 0) (9, 15, 0)) = Ok els /\
    In (AreaChart trend) els /\
    trend = [(mkTimestamp 2024 1 1 10 0 0, 1); (mkTimestamp 2024 1 1 11 30 0, 1)] /\
    keys_as_days trend = [("2024-01-01", 1); ("2024-01-01", 1)] /\
    keys_as_days trend <> [("2024-01-01", 2)].
Proof.
  split; [apply scenario_sidebar|].
  eexists; eexists; split; [vm_compute; reflexivity|].
  split; [simpl; auto 10|].
  split; [reflexivity|].
  split; [vm_compute; reflexivity | vm_compute; discriminate].
Qed.

(** C5, as the code has it.  On a filtered frame, each of the three KPI
    modes - sector, offense, hour - whose column has a cell that is not
    missing is computed, and is the least value, in the natural ordering
    of its column (numeric on integers and on hours, code-point order on
    text), among the values of highest frequency, missing cells set
    aside: one rule for the three.  The hour column of a frame with rows
    always has such a cell.  With the four columns present these are the
    values the KPI cards show. *)
Theorem mode_tie_break (view : DataFrame) :
  (dropna (map zone (rows view)) <> [] ->
   exists risk_zone,
     first (mode (map zone (rows view))) = Ok risk_zone /\
     least_most_frequent risk_zone (map zone (rows view))) /\
  (dropna (map crime_type (rows view)) <> [] ->
   exists primary_code,
     first (mode (map crime_type (rows view))) = Ok primary_code /\
     least_most_frequent primary_code (map crime_type (rows view))) /\
  (rows view <> [] ->
   exists peak_h,
     first (mode (map hour (rows view))) = Ok peak_h /\
     least_most_frequent peak_h (map hour (rows view))) /\
  (forall s t : string, val_leb (Str s) (Str t) = str_leb s t) /\
  (forall x y : Z, val_leb (Int x) (Int y) = Z.leb x y) /\
  (forall h k : nat, val_leb h k = Nat.leb h k) /\
  (dropna (map zone (rows view)) <> [] ->
   dropna (map crime_type (rows view)) <> [] ->
   rows view <> [] ->
   has_label "zone" (columns view) = true ->
   has_label "crime_type" (columns view) = true ->
   has_label "hour" (columns view) = true ->
   has_label "date" (columns view) = true ->
   exists risk_zone primary_code peak_h charts,
     first (mode (map zone (rows view))) = Ok risk_zone /\
     first (mode (map crime_type (rows view))) = Ok primary_code /\
     first (mode (map hour (rows view))) = Ok peak_h /\
     dashboard view =
     Ok (KpiCard "TOTAL INCIDENTS" (Count (List.length (rows view))) ::
         KpiCard "HIGH RISK SECTOR" (Text risk_zone) ::
         KpiCard "PRIMARY OFFENSE" (Text primary_code) ::
         KpiCard "PEAK ACTIVITY" (HourOfDay peak_h) :: charts)).
Proof.
  split; [apply mode_least_most_frequent|].
  split; [apply mode_least_most_frequent|].
  split.
  { intros Hne; apply mode_least_most_frequent.
    rewrite dropna_hours; destruct (rows view); [congruence | discriminate]. }
  do 3 (split; [reflexivity|]).
  intros Pz Pc Hne Lz Lc Lh Ld.
  destruct (dashboard_ok view Pz Pc Hne Lz Lc Lh Ld) as (z & c & h & Ez & Ec & Eh & E).
  exists z, c, h; eexists; repeat (split; [eassumption|]). exact E.
Qed.

Lemma mode_tie_break_witness :
  first (mode (map zone (rows tied_df))) = Ok (Str "East") /\
  first (mode (map crime_type (rows tied_df))) = Ok (Str "assault") /\
  first (mode (map hour (rows tied_df))) = Ok 7 /\
  least_most_frequent (Str "East") (map zone (rows tied_df)) /\
  least_most_frequent (Str "assault") (map crime_type (rows tied_df)) /\
  least_most_frequent 7 (map hour (rows tied_df)).
Proof.
  destruct (mode_tie_break tied_df) as (Hz & Hc & Hh & _).
  destruct Hz as (z & Ez & Lz); [vm_compute; discriminate|].
  destruct Hc as (c & Ec & Lc); [vm_compute; discriminate|].
  destruct Hh as (h & Eh & Lh); [discriminate|].
  assert (Ez' : first (mode (map zone (rows tied_df))) = Ok (Str "East"))
    by (vm_compute; reflexivity).
  assert (Ec' : first (mode (map crime_type (rows tied_df))) = Ok (Str "assault"))
    by (vm_compute; reflexivity).
  assert (Eh' : first (mode (map hour (rows tied_df))) = Ok 7)
    by (vm_compute; reflexivity).
  rewrite Ez' in Ez; rewrite Ec' in Ec; rewrite Eh' in Eh.
  injection Ez as <-; injection Ec as <-; injection Eh as <-.
  exact (conj Ez' (conj Ec' (conj Eh' (conj Lz (conj Lc Lh))))).
Defined.

(** C5, as the specification states it, fails.  Missing cells are no
    candidates: in a column where the missing cell is the most frequent
    one the mode is a present value.  And a filtered frame can have rows
    and yet a sector column without a single present cell; [mode()] is
    then empty, [mode()[0]] raises, and the run that reaches it from the
    file ends in that uncaught lookup error.  In a column of numbers the
    least of the tied values is the numerically least. *)
Lemma mode_of_missing_sectors_raises :
  count NaN [NaN; NaN; Str "A"] = 2 /\
  count (Str "A") [NaN; NaN; Str "A"] = 1 /\
  first (mode [NaN; NaN; Str "A"]) = Ok (Str "A") /\
  rows unzoned_df <> [] /\
  first (mode (map zone (rows unzoned_df))) = Raise LookupError /\
  dashboard unzoned_df = Raise LookupError /\
  fst (load_data iso_datetime (only_primary unzoned_csv)) = Ok unzoned_df /\
  app iso_datetime (only_primary unzoned_csv) unzoned_choice = Crashed LookupError /\
  first (mode [Int 10; Int 9; Int 10; Int 9]) = Ok (Int 9).
Proof.
  do 3 (split; [vm_compute; reflexivity|]).
  split; [discriminate|].
  repeat (split; [vm_compute; reflexivity|]).
  vm_compute; reflexivity.
Qed.

(** C6, as the code has it.  The trend series of the area chart is
    [groupby('date').size()]: its keys are the distinct timestamps of the
    filtered frame, each mapped to the number of rows with exactly that
    timestamp, and they are in strictly ascending chronological order. *)
Theorem trend_by_timestamp (view : DataFrame) (els : list element)
        (trend : list (Timestamp * nat)) :
  dashboard view = Ok els ->
  In (AreaChart trend) els ->
  (forall t n, In (t, n) trend <->
               In t (map date (rows view)) /\ n = count t (map date (rows view))) /\
  StronglySorted (fun a b => ts_leb a b = true /\ a <> b) (map fst trend).
Proof.
  intros Hdash Hin.
  rewrite (proj2 (proj2 (dashboard_charts view els Hdash)) trend Hin).
  split.
  - intros t n; rewrite groupby_size_In; cbn [val_isna Ordered_Timestamp]; tauto.
  - destruct (groupby_size_keys_ascending (map date (rows view))) as [Hasc Hnd].
    exact (strictly_ascending _ Hasc Hnd).
Qed.

Lemma trend_by_timestamp_witness :
  StronglySorted (fun a b => ts_leb a b = true /\ a <> b)
    (map fst [(mkTimestamp 2024 1 1 10 0 0, 1);
              (mkTimestamp 2024 1 1 11 30 0, 1);
              (mkTimestamp 2024 1 2 9 15 0, 1)]).
Proof.
  refine (proj2 (trend_by_timestamp sample_df _ _ _ _)).
  - vm_compute; reflexivity.
  - simpl; auto 10.
Defined.

(** C6, as the specification states it, fails: on the sample frame two
    incidents share the day 2024-01-01 at different times; the series of
    the specification has the entry ("2024-01-01", 2), the trend series
    of the script has two entries of count 1 for that day. *)
Lemma trend_not_daily_series :
  exists els trend,
    dashboard sample_df = Ok els /\
    In (AreaChart trend) els /\
    spec_daily_series (rows sample_df) = [("2024-01-01", 2); ("2024-01-02", 1)] /\
    keys_as_days trend = [("2024-01-01", 1); ("2024-01-01", 1); ("2024-01-02", 1)] /\
    keys_as_days trend <> spec_daily_series (rows sample_df).
Proof.
  eexists; eexists; split; [vm_compute; reflexivity|].
  split; [simpl; auto 10|].
  split; [vm_compute; reflexivity|].
  split; [vm_compute; reflexivity | vm_compute; discriminate].
Qed.

(** C7, as the code has it.  The counts of the bar chart
    ([value_counts] of [crime_type]) add up to the number of rows of the
    filtered frame whose offense cell is not missing: to the total of the
    first KPI card when no offense cell is missing, to less otherwise.
    The counts of the trend series ([groupby('date').size()]) add up to
    the total, every row having a timestamp; so do the counts of the
    per-day series of the specification. *)
Theorem counts_sum_to_total (view : DataFrame) :
  list_sum (map snd (value_counts (map crime_type (rows view))))
  = List.length (filter (fun r => negb (cell_isna (crime_type r))) (rows view)) /\
  (Forall (fun r => crime_type r <> NaN) (rows view) ->
   list_sum (map snd (value_counts (map crime_type (rows view))))
   = List.length (rows view)) /\
  list_sum (map snd (groupby_size (map date (rows view)))) = List.length (rows view) /\
  list_sum (map snd (spec_daily_series (rows view))) = List.length (rows view) /\
  (forall els counts trend total label,
      dashboard view = Ok els ->
      In (BarChart counts) els ->
      In (AreaChart trend) els ->
      In (KpiCard label (Count total)) els ->
      list_sum (map snd counts)
      = List.length (filter (fun r => negb (cell_isna (crime_type r))) (rows view)) /\
      list_sum (map snd counts) <= total /\
      list_sum (map snd trend) = total).
Proof.
  assert (Hc : list_sum (map snd (value_counts (map crime_type (rows view))))
               = List.length (filter (fun r => negb (cell_isna (crime_type r)))
                                     (rows view))).
  { rewrite value_counts_sum; unfold dropna.
    now rewrite filter_map_swap, length_map. }
  assert (Ht : list_sum (map snd (groupby_size (map date (rows view))))
               = List.length (rows view))
    by now rewrite groupby_size_sum, dropna_stamps, length_map.
  split; [assumption | split; [|split; [assumption | split]]].
  - intros Hall; rewrite Hc; f_equal; apply filter_all.
    rewrite Forall_forall in Hall; intros r Hr; specialize (Hall r Hr).
    now destruct (crime_type r).
  - unfold spec_daily_series; now rewrite groupby_size_sum, dropna_texts, length_map.
  - intros els counts trend total label Hdash Hbar Harea Hkpi.
    destruct (dashboard_charts view els Hdash) as (Hk & Hb & Ha).
    rewrite (Hb counts Hbar), (Ha trend Harea), (Hk total label Hkpi), Hc, Ht.
    split; [reflexivity | split; [apply filter_length_le | reflexivity]].
Qed.

Lemma counts_sum_to_total_witness :
  list_sum (map snd [(Str "theft", 2); (Str "assault", 1)])
  = List.length (filter (fun r => negb (cell_isna (crime_type r))) (rows sample_df)) /\
  list_sum (map snd [(Str "theft", 2); (Str "assault", 1)]) <= 3 /\
  list_sum (map snd [(mkTimestamp 2024 1 1 10 0 0, 1);
                     (mkTimestamp 2024 1 1 11 30 0, 1);
                     (mkTimestamp 2024 1 2 9 15 0, 1)]) = 3.
Proof.
  refine (proj2 (proj2 (proj2 (proj2 (counts_sum_to_total sample_df))))
            _ _ _ _ "TOTAL INCIDENTS" _ _ _ _).
  - vm_compute; reflexivity.
  - simpl; auto 10.
  - simpl; auto 10.
  - simpl; auto 10.
Defined.

(** C7, as the specification states it, fails: a file of three rows one
    of which has no offense loads, the default choice keeps the three
    rows, and the bars add up to 2 while the total of the first KPI card
    is 3. *)
Lemma bar_counts_fall_short :
  fst (load_data iso_datetime (only_primary uncoded_csv)) = Ok uncoded_df /\
  (exists side, sidebar uncoded_df uncoded_choice = Ok (side, uncoded_df)) /\
  exists els counts,
    dashboard uncoded_df = Ok els /\
    In (KpiCard "TOTAL INCIDENTS" (Count 3)) els /\
    In (BarChart counts) els /\
    counts = [(Str "theft", 1); (Str "assault", 1)] /\
    list_sum (map snd counts) = 2 /\
    list_sum (map snd counts) <> List.length (rows uncoded_df).
Proof.
  split; [vm_compute; reflexivity|].
  split; [eexists; vm_compute; reflexivity|].
  eexists; eexists; split; [vm_compute; reflexivity|].
  split; [simpl; auto 10|].
  split; [simpl; auto 10|].
  split; [reflexivity|].
  split; [reflexivity | vm_compute; discriminate].
Qed.

(* ------------------------------------------------------------------ *)
(** ** Further properties of the loader *)

(** X1.  When [pd.read_csv] does anything but raise [FileNotFoundError]
    on [crime_data.csv], the other path plays no part: two file systems
    that agree on the first path give the same result and the same log.
    A first file that is unreadable or corrupt is therefore never
    replaced by a good one in the subfolder. *)
Theorem fallback_only_when_missing (parse : string -> option Timestamp)
        (fs1 fs2 : FileSystem) :
  fs1 primary_path = fs2 primary_path ->
  fs1 primary_path <> Raise FileNotFoundError ->
  load_data parse fs1 = load_data parse fs2.
Proof.
  intros Hsame Hfound.
  unfold load_data, load_body.
  rewrite (read_source_found fs1 Hfound).
  rewrite Hsame in Hfound; rewrite (read_source_found fs2 Hfound).
  now rewrite Hsame.
Qed.

Lemma fallback_only_when_missing_witness :
  load_data iso_datetime (both_paths corrupt_csv sample_csv)
  = load_data iso_datetime (only_primary corrupt_csv) /\
  load_data iso_datetime (only_primary corrupt_csv) = (Ok empty_frame, [primary_path]).
Proof.
  split; [|vm_compute; reflexivity].
  apply fallback_only_when_missing; [reflexivity | discriminate].
Defined.

(** X2.  A frame with rows that [load_data] returns is the file
    [read_source] selected, row for row and in the same order: the text
    cells are unchanged, [date] is the parsed date cell, [hour] and [day]
    are computed from [date]; the frame has the columns [date], [hour]
    and [day] and every column of the file. *)
Theorem loaded_frame_mirrors_file (parse : string -> option Timestamp)
        (fs : FileSystem) (df : DataFrame) :
  fst (load_data parse fs) = Ok df ->
  rows df <> [] ->
  exists raw,
    fst (read_source fs) = Ok raw /\
    List.length (rows df) = List.length (raw_rows raw) /\
    Forall2 (fun r row =>
               parse (raw_date r) = Some (date row) /\
               hour row = ts_hour (date row) /\
               day row = isoformat (ts_date (date row)) /\
               zone row = raw_zone r /\ crime_type row = raw_crime_type r /\
               latitude row = raw_latitude r /\ longitude row = raw_longitude r)
            (raw_rows raw) (rows df) /\
    has_label "date" (columns df) = true /\
    has_label "hour" (columns df) = true /\
    has_label "day" (columns df) = true /\
    (forall c, has_label c (raw_columns raw) = true -> has_label c (columns df) = true).
Proof.
  intros Hload Hne.
  destruct (load_data_frame parse fs) as [E | (raw & df' & Hraw & Hproc & E)];
    rewrite Hload in E; injection E as ->; [now elim Hne|].
  destruct (process_spec parse raw df' Hproc) as ((Hd & Hh & Hday & _) & Hcols & Hrows).
  exists raw; repeat split; try assumption.
  symmetry; exact (Forall2_length Hrows).
Qed.

Lemma loaded_frame_mirrors_file_witness :
  exists raw,
    fst (read_source (only_fallback sample_csv)) = Ok raw /\
    List.length (rows sample_df) = List.length (raw_rows raw).
Proof.
  destruct (loaded_frame_mirrors_file iso_datetime (only_fallback sample_csv) sample_df)
    as (raw & Hraw & Hlen & _).
  - vm_compute; reflexivity.
  - discriminate.
  - exists raw; split; assumption.
Defined.

(* ------------------------------------------------------------------ *)
(** ** Further properties of the sidebar *)

Lemma lex_leb_prefix (a b x y : list nat) :
  List.length a = List.length b ->
  lex_leb (a ++ x) (b ++ y) = true -> lex_leb a b = true.
Proof.
  intros Hlen; unfold lex_leb; rewrite (lex_compare_app a b x y Hlen).
  now destruct (lex_compare a b).
Qed.

Lemma ts_leb_date (a b : Timestamp) :
  ts_leb a b = true -> date_leb (ts_date a) (ts_date b) = true.
Proof.
  unfold ts_leb, date_leb.
  apply (lex_leb_prefix (date_fields (ts_date a)) (date_fields (ts_date b))
           [ts_hour a; ts_minute a; ts_second a] [ts_hour b; ts_minute b; ts_second b]).
  reflexivity.
Qed.

Lemma ts_leb_refl (a : Timestamp) : ts_leb a a = true.
Proof. exact (val_leb_refl a). Qed.

Lemma ts_leb_trans (a b c : Timestamp) :
  ts_leb a b = true -> ts_leb b c = true -> ts_leb a c = true.
Proof. apply lex_leb_trans. Qed.

Lemma ts_leb_total (a b : Timestamp) : ts_leb a b = true \/ ts_leb b a = true.
Proof. apply lex_leb_total. Qed.

Lemma fold_min_spec (t : list Timestamp) (x : Timestamp) :
  let lo := fold_left (fun m y => if ts_leb y m then y else m) t x in
  In lo (x :: t) /\ forall y, In y (x :: t) -> ts_leb lo y = true.
Proof.
  revert x; induction t as [|z t IH]; intros x; cbn [fold_left].
  - split; [now left|]. intros y [<- | []]; apply ts_leb_refl.
  - destruct (IH (if ts_leb z x then z else x)) as [Hin Hle].
    split.
    + destruct Hin as [E | Hin]; [|right; right; exact Hin].
      rewrite <- E; destruct (ts_leb z x); simpl; auto.
    + intros y Hy.
      assert (Hm : ts_leb (if ts_leb z x then z else x) x = true /\
                   ts_leb (if ts_leb z x then z else x) z = true).
      { destruct (ts_leb z x) eqn:E; split; auto using ts_leb_refl.
        destruct (ts_leb_total z x) as [H | H]; [congruence | exact H]. }
      destruct Hy as [<- | [<- | Hy]].
      * eapply ts_leb_trans; [apply Hle; now left | apply Hm].
      * eapply ts_leb_trans; [apply Hle; now left | apply Hm].
      * apply Hle; now right.
Qed.

Lemma fold_max_spec (t : list Timestamp) (x : Timestamp) :
  let hi := fold_left (fun m y => if ts_leb m y then y else m) t x in
  In hi (x :: t) /\ forall y, In y (x :: t) -> ts_leb y hi = true.
Proof.
  revert x; induction t as [|z t IH]; intros x; cbn [fold_left].
  - split; [now left|]. intros y [<- | []]; apply ts_leb_refl.
  - destruct (IH (if ts_leb x z then z else x)) as [Hin Hle].
    split.
    + destruct Hin as [E | Hin]; [|right; right; exact Hin].
      rewrite <- E; destruct (ts_leb x z); simpl; auto.
    + intros y Hy.
      assert (Hm : ts_leb x (if ts_leb x z then z else x) = true /\
                   ts_leb z (if ts_leb x z then z else x) = true).
      { destruct (ts_leb x z) eqn:E; split; auto using ts_leb_refl.
        destruct (ts_leb_total x z) as [H | H]; [congruence | exact H]. }
      destruct Hy as [<- | [<- | Hy]].
      * eapply ts_leb_trans; [apply Hm | apply Hle; now left].
      * eapply ts_leb_trans; [apply Hm | apply Hle; now left].
      * apply Hle; now right.
Qed.

Lemma column_min_spec (col : list Timestamp) (lo : Timestamp) :
  column_min col = Ok lo -> In lo col /\ forall y, In y col -> ts_leb lo y = true.
Proof.
  destruct col as [|x t]; [discriminate|].
  intros E; injection E as <-; apply fold_min_spec.
Qed.

Lemma column_max_spec (col : list Timestamp) (hi : Timestamp) :
  column_max col = Ok hi -> In hi col /\ forall y, In y col -> ts_leb y hi = true.
Proof.
  destruct col as [|x t]; [discriminate|].
  intros E; injection E as <-; apply fold_max_spec.
Qed.

(** The sidebar in full, on a frame of [load_data] with rows and with the
    two columns the widgets read. *)
Lemma sidebar_widgets (df : DataFrame) (ui : Criteria) :
  derived_columns df -> rows df <> [] ->
  has_label "zone" (columns df) = true ->
  has_label "crime_type" (columns df) = true ->
  exists lo hi,
    column_min (map date (rows df)) = Ok lo /\
    column_max (map date (rows df)) = Ok hi /\
    sidebar df ui =
    Ok ([SidebarTitle;
         DateInputWidget (ts_date lo) (ts_date hi);
         MultiSelect "SECTORS" (unique (map zone (rows df)));
         MultiSelect "OFFENSE CODES" (unique (map crime_type (rows df)))],
        loc df (map (row_test ui) (rows df))).
Proof.
  intros (Hdate & Hhour & Hday & Hrows) Hne Hz Hc.
  assert (Hcol : map date (rows df) <> [])
    by (destruct (rows df); [congruence | discriminate]).
  destruct (column_min_ok _ Hcol) as (lo & Elo).
  destruct (column_max_ok _ Hcol) as (hi & Ehi).
  exists lo, hi; split; [assumption | split; [assumption|]].
  unfold sidebar.
  rewrite (df_empty_rows df Hday).
  destruct (rows df) as [|r0 rs] eqn:Erows; [congruence|]; cbn [negb].
  rewrite <- Erows in *.
  rewrite (date_mask_test (dates ui) df Hday).
  unfold getitem; rewrite Hdate, Hz, Hc; cbn [bind].
  rewrite Elo, Ehi; cbn [bind].
  rewrite !isin_map, !mask_and_map; reflexivity.
Qed.

Lemma sidebar_result (parse : string -> option Timestamp) (fs : FileSystem)
      (ui : Criteria) (df : DataFrame) (side : list element) (view : DataFrame) :
  fst (load_data parse fs) = Ok df ->
  rows df <> [] ->
  sidebar df ui = Ok (side, view) ->
  derived_columns df /\
  has_label "zone" (columns df) = true /\
  has_label "crime_type" (columns df) = true /\
  view = loc df (map (row_test ui) (rows df)) /\
  exists lo hi,
    column_min (map date (rows df)) = Ok lo /\
    column_max (map date (rows df)) = Ok hi /\
    side = [SidebarTitle;
            DateInputWidget (ts_date lo) (ts_date hi);
            MultiSelect "SECTORS" (unique (map zone (rows df)));
            MultiSelect "OFFENSE CODES" (unique (map crime_type (rows df)))].
Proof.
  intros Hload Hne Hside.
  destruct (load_data_derived parse fs df Hload) as [-> | Hd]; [now elim Hne|].
  destruct (sidebar_rows parse fs ui df side view Hload Hside) as (_ & _ & Hlabels).
  destruct (Hlabels Hne) as (_ & Hz & Hc).
  destruct (sidebar_widgets df ui Hd Hne Hz Hc) as (lo & hi & Elo & Ehi & E).
  rewrite E in Hside; injection Hside as <- <-.
  do 3 (split; [assumption|]).
  split; [reflexivity|].
  exists lo, hi; auto.
Qed.

(** C2, as the code has it.  Whenever the filtered frame has no rows,
    the run ends in [st.stop()] at the guard of line 155: the page is
    the sidebar, the title and the error box "SYSTEM OFFLINE: NO DATA
    FOUND. CHECK CONNECTION." and nothing else, so no KPI card and no
    other message.  The guard comes before the modes: the run stops
    although each [mode()[0]] would raise on the empty column.  Clearing
    the sector list or the offense list gives such a frame, and on a
    loaded frame that has the [zone] and [crime_type] columns the
    sidebar raises nothing. *)
Theorem empty_view_halts (parse : string -> option Timestamp) (fs : FileSystem)
        (ui : Criteria) :
  (forall df side view,
      fst (load_data parse fs) = Ok df ->
      sidebar df ui = Ok (side, view) ->
      rows view = [] ->
      app parse fs ui = Stopped (side ++ [PageTitle; ErrorBox offline_msg]) /\
      main_area (side ++ [PageTitle; ErrorBox offline_msg])
      = [PageTitle; ErrorBox "SYSTEM OFFLINE: NO DATA FOUND. CHECK CONNECTION."]) /\
  (forall view,
      rows view = [] ->
      main view = Stopped [PageTitle; ErrorBox offline_msg] /\
      first (mode (map zone (rows view))) = Raise LookupError /\
      first (mode (map crime_type (rows view))) = Raise LookupError /\
      first (mode (map hour (rows view))) = Raise LookupError) /\
  (forall df side view,
      fst (load_data parse fs) = Ok df ->
      sidebar df ui = Ok (side, view) ->
      zones ui = [] \/ crimes ui = [] ->
      rows view = []) /\
  (forall df,
      fst (load_data parse fs) = Ok df ->
      has_label "zone" (columns df) = true ->
      has_label "crime_type" (columns df) = true ->
      exists side view, sidebar df ui = Ok (side, view)).
Proof.
  split; [|split; [|split]].
  - intros df side view Hload Hside Hrows; split.
    + now apply (app_empty_view parse fs ui df side view).
    + rewrite main_area_sidebar; [reflexivity|].
      apply (sidebar_rows parse fs ui df side view Hload Hside).
  - intros view Hrows; split; [now apply main_no_rows|].
    rewrite Hrows; repeat split; reflexivity.
  - intros df side view Hload Hside Hsel.
    rewrite (proj1 (sidebar_rows parse fs ui df side view Hload Hside)).
    now apply row_test_no_zone.
  - intros df Hload Hz Hc.
    destruct (load_data_derived parse fs df Hload) as [-> | Hd]; [discriminate|].
    destruct (rows df) as [|r0 rs] eqn:Erows.
    + rewrite sidebar_empty by (now apply derived_df_empty); eauto.
    + assert (Hne : rows df <> []) by (rewrite Erows; discriminate).
      destruct (sidebar_widgets df ui Hd Hne Hz Hc) as (lo & hi & _ & _ & E); eauto.
Qed.

Lemma empty_view_halts_witness :
  fst (load_data iso_datetime (only_primary sample_csv)) = Ok sample_df /\
  sidebar sample_df no_sector = Ok (sample_widgets, loc sample_df [false; false; false]) /\
  app iso_datetime (only_primary sample_csv) no_sector =
  Stopped (sample_widgets ++ [PageTitle; ErrorBox offline_msg]).
Proof.
  assert (Hload : fst (load_data iso_datetime (only_primary sample_csv)) = Ok sample_df)
    by (vm_compute; reflexivity).
  assert (Hside : sidebar sample_df no_sector
                  = Ok (sample_widgets, loc sample_df [false; false; false]))
    by (vm_compute; reflexivity).
  split; [exact Hload | split; [exact Hside|]].
  apply (proj1 (empty_view_halts iso_datetime (only_primary sample_csv) no_sector)
           sample_df sample_widgets (loc sample_df [false; false; false]) Hload Hside).
  reflexivity.
Defined.

(** C2, as the specification states it, fails.  The file loads and the
    operator clears the offense list: the run stops on the error box of
    a failed load, word for word, and the page holds no other message.
    And the lookup error of [mode()[0]] is not out of reach of a run:
    with a file whose sector cells are all empty and the widgets at
    their defaults, rows pass the filter and the run ends in it.  Nor
    does clearing the offense list always give an empty frame: on a file
    without a [zone] column the sidebar raises first. *)
Lemma empty_view_signal_is_offline_box :
  fst (load_data iso_datetime (only_primary sample_csv)) = Ok sample_df /\
  crimes no_offense = [] /\
  app iso_datetime (only_primary sample_csv) no_offense
  = Stopped (sample_widgets ++
             [PageTitle; ErrorBox "SYSTEM OFFLINE: NO DATA FOUND. CHECK CONNECTION."]) /\
  app iso_datetime nothing_on_disk no_offense
  = Stopped [SidebarTitle; PageTitle;
             ErrorBox "SYSTEM OFFLINE: NO DATA FOUND. CHECK CONNECTION."] /\
  fst (load_data iso_datetime (only_primary unzoned_csv)) = Ok unzoned_df /\
  filter (row_test unzoned_choice) (rows unzoned_df) = rows unzoned_df /\
  app iso_datetime (only_primary unzoned_csv) unzoned_choice = Crashed LookupError /\
  app iso_datetime (only_primary no_zone_csv) no_offense = Crashed (KeyError "zone").
Proof. repeat split; vm_compute; reflexivity. Qed.

(** C9, as the code has it.  A failed load and an empty filter result
    end the run in the same way: the page below the sidebar is the title
    followed by the error box "SYSTEM OFFLINE: NO DATA FOUND. CHECK
    CONNECTION.", and [st.stop()] follows.  The two pages differ in the
    sidebar at most.  When the loaded frame is empty - [load_data] gave
    up, or the file has no data row - the sidebar is the heading alone;
    when the loaded frame has rows it is the heading, the date input and
    the two multiselects. *)
Theorem empty_view_shown_as_offline (parse : string -> option Timestamp)
        (fs : FileSystem) (ui : Criteria) (df : DataFrame) :
  fst (load_data parse fs) = Ok df ->
  (df_empty df = true ->
   sidebar df ui = Ok ([SidebarTitle], empty_frame) /\
   app parse fs ui
   = Stopped [SidebarTitle; PageTitle;
              ErrorBox "SYSTEM OFFLINE: NO DATA FOUND. CHECK CONNECTION."]) /\
  (forall side view,
      sidebar df ui = Ok (side, view) ->
      rows view = [] ->
      app parse fs ui = Stopped (side ++ [PageTitle; ErrorBox offline_msg]) /\
      main_area (side ++ [PageTitle; ErrorBox offline_msg]) =
      main_area [SidebarTitle; PageTitle; ErrorBox offline_msg] /\
      (df_empty df = false ->
       exists lo hi,
         side = [SidebarTitle;
                 DateInputWidget lo hi;
                 MultiSelect "SECTORS" (unique (map zone (rows df)));
                 MultiSelect "OFFENSE CODES" (unique (map crime_type (rows df)))])).
Proof.
  intros Hload; split.
  - intros Hempty; split; [now apply sidebar_empty|].
    rewrite (app_empty_view parse fs ui df [SidebarTitle] empty_frame Hload);
      auto using sidebar_empty.
  - intros side view Hside Hrows; split; [|split].
    + now apply (app_empty_view parse fs ui df side view).
    + rewrite main_area_sidebar; [reflexivity|].
      apply (sidebar_rows parse fs ui df side view Hload Hside).
    + intros Hfull.
      assert (Hne : rows df <> []).
      { intros E; unfold df_empty in Hfull; rewrite E in Hfull.
        destruct (columns df); discriminate. }
      destruct (sidebar_result parse fs ui df side view Hload Hne Hside)
        as (_ & _ & _ & _ & lo & hi & _ & _ & ->).
      now exists (ts_date lo), (ts_date hi).
Qed.

Lemma empty_view_shown_as_offline_witness :
  app iso_datetime (only_primary sample_csv) no_sector =
  Stopped (sample_widgets ++ [PageTitle; ErrorBox offline_msg]) /\
  main_area (sample_widgets ++ [PageTitle; ErrorBox offline_msg]) =
  main_area [SidebarTitle; PageTitle; ErrorBox offline_msg] /\
  (df_empty sample_df = false ->
   exists lo hi,
     sample_widgets
     = [SidebarTitle;
        DateInputWidget lo hi;
        MultiSelect "SECTORS" (unique (map zone (rows sample_df)));
        MultiSelect "OFFENSE CODES" (unique (map crime_type (rows sample_df)))]).
Proof.
  apply (proj2 (empty_view_shown_as_offline iso_datetime (only_primary sample_csv)
                  no_sector sample_df ltac:(vm_compute; reflexivity))
           sample_widgets (loc sample_df [false; false; false])).
  - vm_compute; reflexivity.
  - reflexivity.
Defined.

(** C9, as the specification states it, fails: the file loads, the
    operator clears the sector list, and the run stops on the very error
    box a failed load shows; the "no results" page is not a state of its
    own and the load failure is not the only state that stops the page. *)
Lemma no_results_state_not_distinct :
  fst (load_data iso_datetime (only_primary sample_csv)) = Ok sample_df /\
  df_empty sample_df = false /\
  fst (load_data iso_datetime nothing_on_disk) = Ok empty_frame /\
  exists loaded offline,
    app iso_datetime (only_primary sample_csv) no_sector = Stopped loaded /\
    app iso_datetime nothing_on_disk no_sector = Stopped offline /\
    main_area loaded = main_area offline /\
    In (ErrorBox offline_msg) loaded.
Proof.
  split; [vm_compute; reflexivity|].
  split; [reflexivity|].
  split; [vm_compute; reflexivity|].
  exists (sample_widgets ++ [PageTitle; ErrorBox offline_msg]),
         [SidebarTitle; PageTitle; ErrorBox offline_msg].
  split; [vm_compute; reflexivity|].
  split; [vm_compute; reflexivity|].
  split; [reflexivity|].
  simpl; auto 10.
Qed.

Lemma loc_all (df : DataFrame) (p : Row -> bool) :
  (forall r, In r (rows df) -> p r = true) -> loc df (map p (rows df)) = df.
Proof.
  intros Hall.
  assert (E : rows (loc df (map p (rows df))) = rows df)
    by (rewrite loc_map_rows; now apply filter_all).
  destruct df as [cols rs]; unfold loc in *; cbn [columns rows] in *.
  now rewrite E.
Qed.

(** X3.  With the widgets left at their defaults - the date range from
    the earliest to the latest date of the file, every sector, every
    offense - the filtered frame is the loaded frame itself: no row is
    hidden.  The dates of the rows are calendar dates. *)
Theorem defaults_select_everything (parse : string -> option Timestamp)
        (fs : FileSystem) (ui : Criteria) (df : DataFrame)
        (side : list element) (view : DataFrame) :
  fst (load_data parse fs) = Ok df ->
  rows df <> [] ->
  Forall (fun r => valid_date (ts_date (date r)) = true) (rows df) ->
  sidebar df ui = Ok (side, view) ->
  exists choice,
    default_choice side = Some choice /\
    sidebar df choice = Ok (side, df).
Proof.
  intros Hload Hne Hvalid Hside.
  destruct (sidebar_result parse fs ui df side view Hload Hne Hside)
    as (Hd & Hz & Hc & _ & lo & hi & Elo & Ehi & ->).
  eexists; split; [reflexivity|].
  destruct (sidebar_widgets df
              (mkCriteria (DateTuple [ts_date lo; ts_date hi])
                          (unique (map zone (rows df)))
                          (unique (map crime_type (rows df)))) Hd Hne Hz Hc)
    as (lo' & hi' & Elo' & Ehi' & E).
  rewrite Elo in Elo'; injection Elo' as <-.
  rewrite Ehi in Ehi'; injection Ehi' as <-.
  rewrite E; f_equal; f_equal.
  apply loc_all; intros r Hr.
  destruct (column_min_spec _ _ Elo) as (Hlo_in & Hlo).
  destruct (column_max_spec _ _ Ehi) as (Hhi_in & Hhi).
  rewrite Forall_forall in Hvalid.
  assert (Hv : forall t, In t (map date (rows df)) -> valid_date (ts_date t) = true).
  { intros t Ht; apply in_map_iff in Ht; destruct Ht as (r' & <- & Hr'); auto. }
  destruct Hd as (_ & _ & _ & Hrows); rewrite Forall_forall in Hrows.
  destruct (Hrows r Hr) as (_ & Eday).
  unfold row_test; cbn [dates zones crimes date_test].
  rewrite Eday, !str_leb_isoformat by auto using in_map.
  rewrite (ts_leb_date _ _ (Hlo (date r) (in_map date _ r Hr))).
  rewrite (ts_leb_date _ _ (Hhi (date r) (in_map date _ r Hr))).
  cbn [andb]; apply andb_true_iff; split; apply existsb_cell_In, In_unique, in_map, Hr.
Qed.

Lemma defaults_select_everything_witness :
  exists choice,
    default_choice sample_widgets = Some choice /\
    sidebar sample_df choice = Ok (sample_widgets, sample_df).
Proof.
  apply (defaults_select_everything iso_datetime (only_primary sample_csv) no_sector
           sample_df sample_widgets (loc sample_df [false; false; false])).
  - vm_compute; reflexivity.
  - discriminate.
  - repeat constructor.
  - vm_compute; reflexivity.
Defined.

(** X4.  The sidebar of a loaded frame with rows: the date widget is
    offered the earliest and the latest calendar date that occur in the
    frame, and every row lies between them; the two multiselects offer
    the sectors and the offenses that occur, each once. *)
Theorem sidebar_widgets_describe_frame (parse : string -> option Timestamp)
        (fs : FileSystem) (ui : Criteria) (df : DataFrame)
        (side : list element) (view : DataFrame) :
  fst (load_data parse fs) = Ok df ->
  rows df <> [] ->
  sidebar df ui = Ok (side, view) ->
  exists lo hi zs cs,
    side = [SidebarTitle; DateInputWidget lo hi;
            MultiSelect "SECTORS" zs; MultiSelect "OFFENSE CODES" cs] /\
    (exists r, In r (rows df) /\ ts_date (date r) = lo) /\
    (exists r, In r (rows df) /\ ts_date (date r) = hi) /\
    (forall r, In r (rows df) ->
               date_le lo (ts_date (date r)) /\ date_le (ts_date (date r)) hi) /\
    NoDup zs /\ (forall z, In z zs <-> exists r, In r (rows df) /\ zone r = z) /\
    NoDup cs /\ (forall c, In c cs <-> exists r, In r (rows df) /\ crime_type r = c).
Proof.
  intros Hload Hne Hside.
  destruct (sidebar_result parse fs ui df side view Hload Hne Hside)
    as (_ & _ & _ & _ & lo & hi & Elo & Ehi & ->).
  destruct (column_min_spec _ _ Elo) as (Hlo_in & Hlo).
  destruct (column_max_spec _ _ Ehi) as (Hhi_in & Hhi).
  exists (ts_date lo), (ts_date hi),
         (unique (map zone (rows df))), (unique (map crime_type (rows df))).
  split; [reflexivity|].
  split. { apply in_map_iff in Hlo_in; destruct Hlo_in as (r & <- & Hr); eauto. }
  split. { apply in_map_iff in Hhi_in; destruct Hhi_in as (r & <- & Hr); eauto. }
  split.
  { intros r Hr; split; apply date_leb_le, ts_leb_date;
      [apply Hlo | apply Hhi]; now apply in_map. }
  split; [apply NoDup_unique|].
  split.
  { intros z; rewrite In_unique, in_map_iff.
    split; intros (r & H1 & H2); exists r; auto. }
  split; [apply NoDup_unique|].
  intros c; rewrite In_unique, in_map_iff.
  split; intros (r & H1 & H2); exists r; auto.
Qed.

Lemma sidebar_widgets_describe_frame_witness :
  exists lo hi zs cs,
    sample_widgets = [SidebarTitle; DateInputWidget lo hi;
                      MultiSelect "SECTORS" zs; MultiSelect "OFFENSE CODES" cs] /\
    (forall r, In r (rows sample_df) ->
               date_le lo (ts_date (date r)) /\ date_le (ts_date (date r)) hi).
Proof.
  destruct (sidebar_widgets_describe_frame iso_datetime (only_primary sample_csv)
              no_sector sample_df sample_widgets (loc sample_df [false; false; false]))
    as (lo & hi & zs & cs & E & _ & _ & H & _).
  - vm_compute; reflexivity.
  - discriminate.
  - vm_compute; reflexivity.
  - exists lo, hi, zs, cs; split; assumption.
Defined.

Lemma str_leb_refl (a : string) : str_leb a a = true.
Proof. exact (val_leb_refl a). Qed.

Lemma str_leb_trans (a b c : string) :
  str_leb a b = true -> str_leb b c = true -> str_leb a c = true.
Proof. apply lex_leb_trans. Qed.

Lemma str_leb_antisym (a b : string) :
  str_leb a b = true -> str_leb b a = true -> a = b.
Proof. exact (val_leb_antisym a b). Qed.

Lemma str_leb_both (a b : string) :
  str_leb a b && str_leb b a = String.eqb b a.
Proof.
  destruct (String.eqb b a) eqn:E.
  - apply String.eqb_eq in E; subst.
    now rewrite str_leb_refl.
  - apply andb_false_iff.
    destruct (str_leb a b) eqn:Eab; [|now left].
    destruct (str_leb b a) eqn:Eba; [|now right].
    apply String.eqb_neq in E; elim E.
    symmetry; now apply str_leb_antisym.
Qed.

Lemma date_mask_same_day (df : DataFrame) (d : Date) :
  date_mask (DateTuple [d; d]) df = date_mask (DateTuple [d]) df.
Proof.
  unfold date_mask, day_equals, getitem.
  destruct (has_label "day" (columns df)); cbn [bind]; [|reflexivity].
  rewrite mask_and_map; f_equal; apply map_ext; intros s.
  apply str_leb_both.
Qed.

(** X5.  The three ways of asking for one day give the same sidebar and
    the same filtered frame, on any frame: a single date, a tuple of one
    date, and a range whose start and end are that date. *)
Theorem single_day_forms_agree (df : DataFrame) (d : Date) (zs cs : list cell) :
  sidebar df (mkCriteria (OneDate d) zs cs)
  = sidebar df (mkCriteria (DateTuple [d]) zs cs) /\
  sidebar df (mkCriteria (DateTuple [d; d]) zs cs)
  = sidebar df (mkCriteria (DateTuple [d]) zs cs).
Proof.
  split; [reflexivity|].
  unfold sidebar; cbn [dates zones crimes].
  now rewrite date_mask_same_day.
Qed.

(** X6.  A date range whose end lies before its start matches no row:
    the filtered frame is empty and the run stops on the error box. *)
Theorem reversed_range_matches_nothing (parse : string -> option Timestamp)
        (fs : FileSystem) (ui : Criteria) (df : DataFrame)
        (side : list element) (view : DataFrame) (start_d end_d : Date) :
  fst (load_data parse fs) = Ok df ->
  sidebar df ui = Ok (side, view) ->
  dates ui = DateTuple [start_d; end_d] ->
  valid_date start_d = true -> valid_date end_d = true ->
  ~ date_le start_d end_d ->
  rows view = [] /\
  app parse fs ui = Stopped (side ++ [PageTitle; ErrorBox offline_msg]).
Proof.
  intros Hload Hside Hdates Hs He Hrev.
  assert (Hrows : rows view = []).
  { rewrite (proj1 (sidebar_rows parse fs ui df side view Hload Hside)).
    apply filter_none; intros r _.
    unfold row_test; rewrite Hdates; cbn [date_test].
    destruct (str_leb (isoformat start_d) (day r)) eqn:E1; [|reflexivity].
    destruct (str_leb (day r) (isoformat end_d)) eqn:E2; [|reflexivity].
    elim Hrev; apply date_leb_le.
    rewrite <- str_leb_isoformat by assumption.
    exact (str_leb_trans _ _ _ E1 E2). }
  split; [assumption|].
  now apply (app_empty_view parse fs ui df side view).
Qed.

Lemma reversed_range_matches_nothing_witness :
  app iso_datetime (only_primary sample_csv)
      (mkCriteria (DateTuple [mkDate 2024 1 2; mkDate 2024 1 1])
                  [Str "A"; Str "B"] [Str "theft"; Str "assault"])
  = Stopped (sample_widgets ++ [PageTitle; ErrorBox offline_msg]).
Proof.
  apply (reversed_range_matches_nothing iso_datetime (only_primary sample_csv) _
           sample_df sample_widgets (loc sample_df [false; false; false])
           (mkDate 2024 1 2) (mkDate 2024 1 1)).
  - vm_compute; reflexivity.
  - vm_compute; reflexivity.
  - reflexivity.
  - reflexivity.
  - reflexivity.
  - unfold date_le; simpl; lia.
Defined.

Lemma derived_columns_loc (df : DataFrame) (p : Row -> bool) :
  derived_columns df -> derived_columns (loc df (map p (rows df))).
Proof.
  intros (Hd & Hh & Hday & Hrows).
  repeat split; try assumption.
  rewrite loc_map_rows, Forall_forall in *.
  intros r Hr; apply filter_In in Hr; apply Hrows, Hr.
Qed.

(** X7.  Filtering is idempotent: running the sidebar with the same
    choice on the filtered frame succeeds and leaves its rows as they
    are. *)
Theorem filter_idempotent (parse : string -> option Timestamp) (fs : FileSystem)
        (ui : Criteria) (df : DataFrame) (side : list element) (view : DataFrame) :
  fst (load_data parse fs) = Ok df ->
  sidebar df ui = Ok (side, view) ->
  exists side' view',
    sidebar view ui = Ok (side', view') /\ rows view' = rows view.
Proof.
  intros Hload Hside.
  destruct (rows view) as [|v0 vs] eqn:Ev.
  - exists [SidebarTitle], empty_frame; split; [|reflexivity].
    apply sidebar_empty; unfold df_empty; rewrite Ev; now destruct (columns view).
  - assert (Hne : rows df <> []).
    { intros E.
      rewrite (proj1 (sidebar_rows parse fs ui df side view Hload Hside)), E in Ev.
      discriminate. }
    destruct (sidebar_result parse fs ui df side view Hload Hne Hside)
      as (Hd & Hz & Hc & -> & _).
    assert (Hvne : rows (loc df (map (row_test ui) (rows df))) <> [])
      by (rewrite Ev; discriminate).
    destruct (sidebar_widgets _ ui (derived_columns_loc df (row_test ui) Hd) Hvne Hz Hc)
      as (lo & hi & _ & _ & E).
    eexists; eexists; split; [exact E|].
    rewrite loc_map_rows, Ev, <- Ev, loc_map_rows.
    apply filter_all; intros r Hr; apply filter_In in Hr; apply Hr.
Qed.

Lemma filter_idempotent_witness :
  exists side' view',
    sidebar (loc sample_df [true; true; false]) scenario_ui = Ok (side', view') /\
    rows view' = rows (loc sample_df [true; true; false]).
Proof.
  apply (filter_idempotent iso_datetime (only_primary sample_csv) scenario_ui sample_df
           sample_widgets).
  - vm_compute; reflexivity.
  - vm_compute; reflexivity.
Defined.

(** X8.  For one loaded frame and one date choice, the widgets shown do
    not depend on what is selected, and selecting more sectors or more
    offenses never removes a row from the filtered frame. *)
Theorem wider_selection_keeps_rows (parse : string -> option Timestamp)
        (fs : FileSystem) (ui ui' : Criteria) (df : DataFrame)
        (side side' : list element) (view view' : DataFrame) :
  fst (load_data parse fs) = Ok df ->
  sidebar df ui = Ok (side, view) ->
  sidebar df ui' = Ok (side', view') ->
  dates ui = dates ui' ->
  incl (zones ui) (zones ui') ->
  incl (crimes ui) (crimes ui') ->
  side' = side /\ incl (rows view) (rows view').
Proof.
  intros Hload Hside Hside' Hdates Hz Hc; split.
  - destruct (rows df) as [|r0 rs] eqn:Erows.
    + assert (Hempty : df_empty df = true)
        by (unfold df_empty; rewrite Erows; now destruct (columns df)).
      rewrite sidebar_empty in Hside, Hside' by assumption.
      congruence.
    + assert (Hne : rows df <> []) by (rewrite Erows; discriminate).
      destruct (sidebar_result parse fs ui df side view Hload Hne Hside)
        as (_ & _ & _ & _ & lo & hi & Elo & Ehi & ->).
      destruct (sidebar_result parse fs ui' df side' view' Hload Hne Hside')
        as (_ & _ & _ & _ & lo' & hi' & Elo' & Ehi' & ->).
      congruence.
  - intros r.
    rewrite (proj1 (sidebar_rows parse fs ui df side view Hload Hside)).
    rewrite (proj1 (sidebar_rows parse fs ui' df side' view' Hload Hside')).
    rewrite !filter_In_test, Hdates.
    intros (Hin & Hd & Hzr & Hcr); auto.
Qed.

Lemma wider_selection_keeps_rows_witness :
  sample_widgets = sample_widgets /\
  incl (rows (loc sample_df [false; false; false])) (rows sample_df).
Proof.
  apply (wider_selection_keeps_rows iso_datetime (only_primary sample_csv)
           no_sector
           (mkCriteria (DateTuple [mkDate 2024 1 1; mkDate 2024 1 2])
                       [Str "A"; Str "B"] [Str "theft"; Str "assault"])
           sample_df).
  - vm_compute; reflexivity.
  - vm_compute; reflexivity.
  - vm_compute; reflexivity.
  - reflexivity.
  - intros z [].
  - apply incl_refl.
Defined.

(* ------------------------------------------------------------------ *)
(** ** Further properties of a run *)

Lemma app_completed_inv (parse : string -> option Timestamp) (fs : FileSystem)
      (ui : Criteria) (page : list element) :
  app parse fs ui = Completed page ->
  exists df side view els log,
    fst (load_data parse fs) = Ok df /\
    sidebar df ui = Ok (side, view) /\
    rows view <> [] /\
    dashboard view = Ok els /\
    data_feed view = Ok log /\
    page = side ++ PageTitle :: els ++ [DataFeed log].
Proof.
  unfold app.
  destruct (fst (load_data parse fs)) as [df|e]; [|discriminate].
  destruct (sidebar df ui) as [[side view]|e] eqn:Hside; [|discriminate].
  unfold main; destruct (df_empty view) eqn:Hempty; [discriminate|].
  destruct (dashboard view) as [els|e] eqn:Hdash; [|discriminate].
  destruct (data_feed view) as [log|e] eqn:Hfeed; [|discriminate].
  cbn [after_sidebar]; intros E; injection E as <-.
  exists df, side, view, els, log; repeat split; auto.
  intros Hrows; unfold df_empty in Hempty; rewrite Hrows in Hempty.
  now destruct (columns view).
Qed.

Lemma first_mode_In {A} `{OrderedLaws A} (col : list A) (v : A) :
  first (mode col) = Ok v -> In v col.
Proof.
  intros Ev.
  destruct (mode_first_spec col (first_mode_present col v Ev)) as (v' & E & Hin & _).
  rewrite E in Ev; now injection Ev as <-.
Qed.

Lemma kpi_in_page (side els : list element) (log : list LogRow)
      (label : string) (value : kpi) :
  forallb is_sidebar_widget side = true ->
  In (KpiCard label value) (side ++ PageTitle :: els ++ [DataFeed log]) ->
  In (KpiCard label value) els.
Proof.
  intros Hside Hin; apply in_app_or in Hin.
  destruct Hin as [Hin | [Hin | Hin]]; [|discriminate|].
  - rewrite forallb_forall in Hside; specialize (Hside _ Hin); discriminate.
  - apply in_app_or in Hin; destruct Hin as [Hin | [Hin | []]];
      [assumption | discriminate].
Qed.

(** X9.  On a page that was rendered to the end, the sector of the
    "HIGH RISK SECTOR" card is one of the selected sectors, the offense of
    the "PRIMARY OFFENSE" card is one of the selected offenses, and the
    total of the "TOTAL INCIDENTS" card is the number of rows that passed
    the filter, which is positive. *)
Theorem kpis_within_selection (parse : string -> option Timestamp) (fs : FileSystem)
        (ui : Criteria) (page : list element) :
  app parse fs ui = Completed page ->
  (forall z, In (KpiCard "HIGH RISK SECTOR" (Text z)) page -> In z (zones ui)) /\
  (forall c, In (KpiCard "PRIMARY OFFENSE" (Text c)) page -> In c (crimes ui)) /\
  (forall n, In (KpiCard "TOTAL INCIDENTS" (Count n)) page ->
             0 < n /\
             exists df, fst (load_data parse fs) = Ok df /\
                        n = List.length (filter (row_test ui) (rows df))).
Proof.
  intros Hrun.
  destruct (app_completed_inv parse fs ui page Hrun)
    as (df & side & view & els & log & Hload & Hside & Hne & Hdash & _ & ->).
  destruct (sidebar_rows parse fs ui df side view Hload Hside) as (Hrows & Hw & _).
  destruct (dashboard_inv view els Hdash) as (z0 & c0 & h0 & Ez & Ec & _ & ->).
  assert (Hsel : forall r, In r (rows view) ->
                           In (zone r) (zones ui) /\ In (crime_type r) (crimes ui)).
  { intros r Hr; rewrite Hrows in Hr; apply filter_In_test in Hr; tauto. }
  split; [|split].
  - intros z Hz; apply (kpi_in_page _ _ _ _ _ Hw) in Hz.
    simpl in Hz; destruct Hz as [Hz | [Hz | [Hz | [Hz | [Hz | [Hz | [Hz | []]]]]]]];
      try discriminate.
    injection Hz as <-.
    apply first_mode_In, in_map_iff in Ez; destruct Ez as (r & <- & Hr).
    apply (Hsel r Hr).
  - intros c Hc; apply (kpi_in_page _ _ _ _ _ Hw) in Hc.
    simpl in Hc; destruct Hc as [Hc | [Hc | [Hc | [Hc | [Hc | [Hc | [Hc | []]]]]]]];
      try discriminate.
    injection Hc as <-.
    apply first_mode_In, in_map_iff in Ec; destruct Ec as (r & <- & Hr).
    apply (Hsel r Hr).
  - intros n Hn; apply (kpi_in_page _ _ _ _ _ Hw) in Hn.
    simpl in Hn; destruct Hn as [Hn | [Hn | [Hn | [Hn | [Hn | [Hn | [Hn | []]]]]]]];
      try discriminate.
    injection Hn as <-. split.
    + destruct (rows view); [congruence | simpl; lia].
    + exists df; split; [assumption | now rewrite Hrows].
Qed.

Lemma kpis_within_selection_witness :
  app iso_datetime (only_primary sample_csv)
      (mkCriteria (DateTuple []) [Str "B"] [Str "theft"; Str "assault"])
  = Completed
      (sample_widgets ++ PageTitle ::
       [KpiCard "TOTAL INCIDENTS" (Count 1);
        KpiCard "HIGH RISK SECTOR" (Text "B");
        KpiCard "PRIMARY OFFENSE" (Text "theft");
        KpiCard "PEAK ACTIVITY" (HourOfDay 11);
        DeckChart [mkRow (mkTimestamp 2024 1 1 11 30 0) 11 "2024-01-01"
                         "B" "theft" "28.62" "77.21"];
        BarChart [(Str "theft", 1)];
        AreaChart [(mkTimestamp 2024 1 1 11 30 0, 1)];
        DataFeed [mkLogRow (mkTimestamp 2024 1 1 11 30 0) 11
                           "B" "theft" "28.62" "77.21"]]) /\
  In (Str "B") (zones (mkCriteria (DateTuple []) [Str "B"] [Str "theft"; Str "assault"])).
Proof.
  assert (Hrun : app iso_datetime (only_primary sample_csv)
                     (mkCriteria (DateTuple []) [Str "B"] [Str "theft"; Str "assault"])
                 = Completed
                     (sample_widgets ++ PageTitle ::
                      [KpiCard "TOTAL INCIDENTS" (Count 1);
                       KpiCard "HIGH RISK SECTOR" (Text "B");
                       KpiCard "PRIMARY OFFENSE" (Text "theft");
                       KpiCard "PEAK ACTIVITY" (HourOfDay 11);
                       DeckChart [mkRow (mkTimestamp 2024 1 1 11 30 0) 11 "2024-01-01"
                                        "B" "theft" "28.62" "77.21"];
                       BarChart [(Str "theft", 1)];
                       AreaChart [(mkTimestamp 2024 1 1 11 30 0, 1)];
                       DataFeed [mkLogRow (mkTimestamp 2024 1 1 11 30 0) 11
                                          "B" "theft" "28.62" "77.21"]]))
    by (vm_compute; reflexivity).
  split; [exact Hrun|].
  apply (proj1 (kpis_within_selection _ _ _ _ Hrun) (Str "B")).
  simpl; auto 10.
Defined.

Lemma sidebar_missing_column (df : DataFrame) (ui : Criteria) :
  derived_columns df -> rows df <> [] ->
  (has_label "zone" (columns df) = false ->
   sidebar df ui = Raise (KeyError "zone")) /\
  (has_label "zone" (columns df) = true ->
   has_label "crime_type" (columns df) = false ->
   sidebar df ui = Raise (KeyError "crime_type")).
Proof.
  intros (Hdate & Hhour & Hday & Hrows) Hne.
  assert (Hcol : map date (rows df) <> [])
    by (destruct (rows df); [congruence | discriminate]).
  destruct (column_min_ok _ Hcol) as (lo & Elo).
  destruct (column_max_ok _ Hcol) as (hi & Ehi).
  unfold sidebar.
  rewrite (df_empty_rows df Hday).
  destruct (rows df) as [|r0 rs] eqn:Erows; [congruence|]; cbn [negb].
  rewrite <- Erows in *.
  unfold getitem; rewrite Hdate; cbn [bind]; rewrite Elo, Ehi; cbn [bind].
  split.
  - intros ->; reflexivity.
  - intros -> ->; reflexivity.
Qed.

(** X10.  A file that loads but has no [zone] column (or, with [zone],
    no [crime_type] column) is not caught by [load_data]: as soon as it
    has a row, every run ends in the uncaught [KeyError] of the sidebar,
    whatever is selected. *)
Theorem missing_column_crashes (parse : string -> option Timestamp) (fs : FileSystem)
        (ui : Criteria) (df : DataFrame) :
  fst (load_data parse fs) = Ok df ->
  rows df <> [] ->
  (has_label "zone" (columns df) = false ->
   app parse fs ui = Crashed (KeyError "zone")) /\
  (has_label "zone" (columns df) = true ->
   has_label "crime_type" (columns df) = false ->
   app parse fs ui = Crashed (KeyError "crime_type")).
Proof.
  intros Hload Hne.
  rewrite (app_unfold parse fs ui df Hload).
  destruct (load_data_derived parse fs df Hload) as [-> | Hd]; [now elim Hne|].
  destruct (sidebar_missing_column df ui Hd Hne) as (Hz & Hc).
  split.
  - intros Lz; now rewrite (Hz Lz).
  - intros Lz Lc; now rewrite (Hc Lz Lc).
Qed.

Lemma missing_column_crashes_witness :
  app iso_datetime (only_primary no_zone_csv) scenario_ui = Crashed (KeyError "zone").
Proof.
  refine (proj1 (missing_column_crashes iso_datetime (only_primary no_zone_csv) scenario_ui
                   {| columns := ["date"; "crime_type"; "latitude"; "longitude"; "hour"; "day"];
                      rows := rows sample_df |} _ _) _).
  - vm_compute; reflexivity.
  - discriminate.
  - reflexivity.
Defined.

Lemma dashboard_no_sector (view : DataFrame) :
  has_label "zone" (columns view) = true ->
  dropna (map zone (rows view)) = [] ->
  dashboard view = Raise LookupError.
Proof.
  intros Hz Pz; unfold dashboard, getitem; rewrite Hz; cbn [bind].
  now rewrite (mode_none _ Pz).
Qed.

Lemma dashboard_no_offense (view : DataFrame) :
  has_label "zone" (columns view) = true ->
  has_label "crime_type" (columns view) = true ->
  dropna (map zone (rows view)) <> [] ->
  dropna (map crime_type (rows view)) = [] ->
  dashboard view = Raise LookupError.
Proof.
  intros Hz Hc Pz Pc; unfold dashboard, getitem; rewrite Hz, Hc; cbn [bind].
  destruct (first_mode_ok _ Pz) as (z & ->); cbn [bind].
  now rewrite (mode_none _ Pc).
Qed.

Lemma main_rows (view : DataFrame) :
  has_label "day" (columns view) = true ->
  rows view <> [] ->
  main view =
  match dashboard view with
  | Raise e => Crashed e
  | Ok els =>
      match data_feed view with
      | Raise e => Crashed e
      | Ok log => Completed (PageTitle :: els ++ [DataFeed log])
      end
  end.
Proof.
  intros Hday Hne; unfold main; rewrite (df_empty_rows view Hday).
  destruct (rows view); [congruence | reflexivity].
Qed.

Lemma data_feed_columns (view : DataFrame) :
  has_label "date" (columns view) = true ->
  has_label "hour" (columns view) = true ->
  has_label "zone" (columns view) = true ->
  has_label "crime_type" (columns view) = true ->
  (has_label "latitude" (columns view) = false ->
   data_feed view = Raise (KeyError "latitude")) /\
  (has_label "latitude" (columns view) = true ->
   has_label "longitude" (columns view) = false ->
   data_feed view = Raise (KeyError "longitude")) /\
  (has_label "latitude" (columns view) = true ->
   has_label "longitude" (columns view) = true ->
   data_feed view = Ok (sort_newest_first (map project (rows view)))).
Proof.
  intros Hd Hh Hz Hc; unfold data_feed, log_labels; cbn [first_missing].
  rewrite Hd, Hh, Hz, Hc.
  split; [|split].
  - now intros ->.
  - now intros -> ->.
  - now intros -> ->.
Qed.

(** X11.  How a run ends on a loaded frame with the [zone] and
    [crime_type] columns.  If no row passes the filter it stops on the
    error box.  If rows pass but none of them has a sector, or none has
    an offense, it ends in the lookup error of [mode()[0]].  If a
    coordinate column of the table at the foot is missing it ends in
    that [KeyError], after the charts.  In every other case it renders
    to the end: the title, the four KPI cards, the map over exactly the
    rows that passed, the bar chart, the trend chart and the table,
    newest row first. *)
Theorem run_stops_or_completes (parse : string -> option Timestamp) (fs : FileSystem)
        (ui : Criteria) (df : DataFrame) :
  fst (load_data parse fs) = Ok df ->
  has_label "zone" (columns df) = true ->
  has_label "crime_type" (columns df) = true ->
  exists side,
    forallb is_sidebar_widget side = true /\
    (filter (row_test ui) (rows df) = [] ->
     app parse fs ui = Stopped (side ++ [PageTitle; ErrorBox offline_msg])) /\
    (filter (row_test ui) (rows df) <> [] ->
     dropna (map zone (filter (row_test ui) (rows df))) = [] ->
     app parse fs ui = Crashed LookupError) /\
    (filter (row_test ui) (rows df) <> [] ->
     dropna (map zone (filter (row_test ui) (rows df))) <> [] ->
     dropna (map crime_type (filter (row_test ui) (rows df))) = [] ->
     app parse fs ui = Crashed LookupError) /\
    (filter (row_test ui) (rows df) <> [] ->
     dropna (map zone (filter (row_test ui) (rows df))) <> [] ->
     dropna (map crime_type (filter (row_test ui) (rows df))) <> [] ->
     (has_label "latitude" (columns df) = false ->
      app parse fs ui = Crashed (KeyError "latitude")) /\
     (has_label "latitude" (columns df) = true ->
      has_label "longitude" (columns df) = false ->
      app parse fs ui = Crashed (KeyError "longitude")) /\
     (has_label "latitude" (columns df) = true ->
      has_label "longitude" (columns df) = true ->
      exists risk_zone primary_code peak_h,
        app parse fs ui =
        Completed
          (side ++
           [PageTitle;
            KpiCard "TOTAL INCIDENTS"
                    (Count (List.length (filter (row_test ui) (rows df))));
            KpiCard "HIGH RISK SECTOR" (Text risk_zone);
            KpiCard "PRIMARY OFFENSE" (Text primary_code);
            KpiCard "PEAK ACTIVITY" (HourOfDay peak_h);
            DeckChart (filter (row_test ui) (rows df));
            BarChart (value_counts (map crime_type (filter (row_test ui) (rows df))));
            AreaChart (groupby_size (map date (filter (row_test ui) (rows df))));
            DataFeed (sort_newest_first
                        (map project (filter (row_test ui) (rows df))))]))).
Proof.
  intros Hload Hz Hc.
  destruct (load_data_derived parse fs df Hload) as [-> | Hd]; [discriminate|].
  rewrite (app_unfold parse fs ui df Hload).
  destruct (rows df) as [|r0 rs] eqn:Erows.
  - rewrite sidebar_empty by (now apply derived_df_empty).
    exists [SidebarTitle]; split; [reflexivity|]. split; [reflexivity|].
    simpl; repeat split; congruence.
  - assert (Hne : rows df <> []) by (rewrite Erows; discriminate).
    destruct (sidebar_widgets df ui Hd Hne Hz Hc) as (lo & hi & _ & _ & E).
    rewrite E, <- Erows.
    exists [SidebarTitle; DateInputWidget (ts_date lo) (ts_date hi);
            MultiSelect "SECTORS" (unique (map zone (rows df)));
            MultiSelect "OFFENSE CODES" (unique (map crime_type (rows df)))].
    split; [reflexivity|].
    set (view := loc df (map (row_test ui) (rows df))).
    assert (Hrows : rows view = filter (row_test ui) (rows df)) by apply loc_map_rows.
    assert (Hcols : columns view = columns df) by reflexivity.
    rewrite <- Hrows, <- Hcols.
    destruct Hd as (Hdate & Hhour & Hday & _).
    split; [|split; [|split]].
    + intros Hnone; now rewrite (main_no_rows view Hnone).
    + intros Hsome Pz.
      now rewrite (main_rows view Hday Hsome), (dashboard_no_sector view Hz Pz).
    + intros Hsome Pz Pc.
      now rewrite (main_rows view Hday Hsome), (dashboard_no_offense view Hz Hc Pz Pc).
    + intros Hsome Pz Pc.
      destruct (dashboard_ok view Pz Pc Hsome Hz Hc Hhour Hdate)
        as (z & c & h & _ & _ & _ & Edash).
      destruct (data_feed_columns view Hdate Hhour Hz Hc) as (Flat & Flong & Fok).
      rewrite (main_rows view Hday Hsome), Edash.
      split; [|split].
      * intros L; now rewrite (Flat L).
      * intros L1 L2; now rewrite (Flong L1 L2).
      * intros L1 L2; exists z, c, h; now rewrite (Fok L1 L2).
Qed.

Lemma run_stops_or_completes_witness :
  exists side,
    forallb is_sidebar_widget side = true /\
    (filter (row_test no_sector) (rows sample_df) = [] ->
     app iso_datetime (only_primary sample_csv) no_sector
     = Stopped (side ++ [PageTitle; ErrorBox offline_msg])).
Proof.
  destruct (run_stops_or_completes iso_datetime (only_primary sample_csv) no_sector
              sample_df) as (side & Hw & Hstop & _).
  - vm_compute; reflexivity.
  - reflexivity.
  - reflexivity.
  - exists side; split; assumption.
Defined.

(* ------------------------------------------------------------------ *)
(** ** Further properties of the chart series *)

Lemma insert_by_count_perm {A} (x : A * nat) (l : list (A * nat)) :
  Permutation (insert_by_count x l) (x :: l).
Proof.
  induction l as [|y l IH]; simpl; [reflexivity|].
  destruct (snd y <=? snd x); [reflexivity|].
  rewrite IH; apply perm_swap.
Qed.

Lemma tally_perm {A} `{Ordered A} (present : list A) :
  Permutation (tally present) (map (fun v => (v, count v present)) (unique present)).
Proof.
  unfold tally.
  induction (map (fun v => (v, count v present)) (unique present)) as [|x l IH]; simpl;
    [reflexivity|].
  now rewrite insert_by_count_perm, IH.
Qed.

Lemma insert_by_count_sorted {A} (x : A * nat) (l : list (A * nat)) :
  StronglySorted (fun a b => snd b <= snd a) l ->
  StronglySorted (fun a b => snd b <= snd a) (insert_by_count x l).
Proof.
  induction 1 as [|y l Hl IH Hy]; simpl.
  - repeat constructor.
  - destruct (snd y <=? snd x) eqn:E.
    + apply Nat.leb_le in E.
      constructor; [now constructor|].
      constructor; [assumption|].
      rewrite Forall_forall in *; intros z Hz.
      specialize (Hy z Hz); lia.
    + apply Nat.leb_gt in E.
      constructor; [assumption|].
      rewrite Forall_forall in *; intros z Hz.
      apply (Permutation_in _ (insert_by_count_perm x l)) in Hz.
      destruct Hz as [<- | Hz]; [lia | auto].
Qed.

Lemma value_counts_sorted {A} `{Ordered A} (col : list A) :
  StronglySorted (fun a b => snd b <= snd a) (value_counts col).
Proof.
  unfold value_counts, tally.
  induction (map (fun v => (v, count v (dropna col))) (unique (dropna col))); simpl;
    [constructor | now apply insert_by_count_sorted].
Qed.

Lemma value_counts_In {A} `{OrderedLaws A} (col : list A) (v : A) (n : nat) :
  In (v, n) (value_counts col) <-> In v col /\ val_isna v = false /\ n = count v col.
Proof.
  unfold value_counts; split.
  - intros Hin; apply (Permutation_in _ (tally_perm (dropna col))) in Hin.
    apply in_map_iff in Hin; destruct Hin as (v' & E & Hv'); injection E as -> <-.
    apply In_unique, In_dropna in Hv'; destruct Hv' as [Hv Hna].
    split; [assumption|]. split; [assumption | now apply count_dropna].
  - intros (Hv & Hna & ->).
    apply (Permutation_in _ (Permutation_sym (tally_perm (dropna col)))).
    apply in_map_iff; exists v; split; [now rewrite count_dropna|].
    now apply In_unique, In_dropna.
Qed.

Lemma value_counts_keys {A} `{OrderedLaws A} (col : list A) :
  NoDup (map fst (value_counts col)).
Proof.
  unfold value_counts.
  apply (Permutation_NoDup
           (Permutation_sym (Permutation_map fst (tally_perm (dropna col))))).
  rewrite map_map; simpl; rewrite map_id; apply NoDup_unique.
Qed.

(** X12.  The series of the bar chart has one bar per offense that is
    present in a row of the filtered frame and no other: rows whose
    offense cell is missing get no bar.  The length of a bar is the
    number of rows with that offense, so at least 1; the bars are in
    descending order of length. *)
Theorem bar_chart_series (view : DataFrame) (els : list element)
        (counts : list (cell * nat)) :
  dashboard view = Ok els ->
  In (BarChart counts) els ->
  (forall c n, In (c, n) counts <->
               (exists r, In r (rows view) /\ crime_type r = c) /\
               c <> NaN /\
               n = List.length (filter (fun r => cell_eqb c (crime_type r)) (rows view))) /\
  (forall n, ~ In (NaN, n) counts) /\
  NoDup (map fst counts) /\
  (forall c n, In (c, n) counts -> 1 <= n) /\
  StronglySorted (fun a b => snd b <= snd a) counts.
Proof.
  intros Hdash Hin.
  rewrite (proj1 (proj2 (dashboard_charts view els Hdash)) counts Hin).
  assert (Hcount : forall c, count c (map crime_type (rows view))
                             = List.length (filter (fun r => cell_eqb c (crime_type r))
                                                   (rows view))).
  { intros c; unfold count; simpl.
    induction (rows view) as [|r l IH]; simpl; [reflexivity|].
    destruct (cell_eqb c (crime_type r)); simpl; now rewrite IH. }
  assert (Hna : forall c : cell, val_isna c = false <-> c <> NaN)
    by (intros [| |]; simpl; split; congruence).
  split; [|split; [|split; [|split]]].
  - intros c n; rewrite value_counts_In, in_map_iff, Hcount, Hna.
    split; intros [(r & H1 & H2) Hn]; (split; [exists r; auto | assumption]).
  - intros n Hn; apply value_counts_In in Hn; destruct Hn as (_ & Hn & _); discriminate.
  - apply value_counts_keys.
  - intros c n Hc; apply value_counts_In in Hc; destruct Hc as (Hc & _ & ->).
    now apply count_pos_In.
  - apply value_counts_sorted.
Qed.

Lemma bar_chart_series_witness :
  StronglySorted (fun a b => snd b <= snd a) [(Str "theft", 2); (Str "assault", 1)].
Proof.
  refine (proj2 (proj2 (proj2 (proj2 (bar_chart_series sample_df _ _ _ _))))).
  - vm_compute; reflexivity.
  - simpl; auto 10.
Defined.

(** X13.  The first bar of the bar chart is as long as the offense of the
    "PRIMARY OFFENSE" card is frequent, and no bar is longer. *)
Theorem top_bar_matches_primary_offense (view : DataFrame) (els : list element) :
  dashboard view = Ok els ->
  exists top n rest primary_code,
    In (BarChart ((top, n) :: rest)) els /\
    In (KpiCard "PRIMARY OFFENSE" (Text primary_code)) els /\
    n = count primary_code (map crime_type (rows view)) /\
    n = count top (map crime_type (rows view)) /\
    (forall c m, In (c, m) rest -> m <= n).
Proof.
  intros Hdash.
  destruct (dashboard_inv view els Hdash) as (z & c & h & _ & Ec & _ & ->).
  set (col := map crime_type (rows view)) in *.
  destruct (mode_first_spec col (first_mode_present col c Ec))
    as (c' & Ec' & Hin & Hna & Hmax & _).
  rewrite Ec in Ec'; injection Ec' as <-.
  pose proof (value_counts_sorted col) as Hsorted.
  assert (Hc : In (c, count c col) (value_counts col)) by now apply value_counts_In.
  destruct (value_counts col) as [|[top n] rest] eqn:Evc; [now elim Hc|].
  assert (Htop : In top col /\ val_isna top = false /\ n = count top col).
  { apply value_counts_In; rewrite Evc; now left. }
  inversion Hsorted as [|? ? _ Hall]; subst.
  rewrite Forall_forall in Hall.
  exists top, (count top col), rest, c.
  destruct Htop as (Htop & Htna & ->).
  split; [simpl; auto 10|]. split; [simpl; auto 10|].
  split; [|split; [reflexivity|]].
  - destruct Hc as [Hc | Hc]; [now injection Hc as -> |].
    specialize (Hall _ Hc); simpl in Hall.
    specialize (Hmax top Htna); lia.
  - intros c0 m Hm; exact (Hall _ Hm).
Qed.

Lemma top_bar_matches_primary_offense_witness :
  exists top n rest primary_code,
    In (BarChart ((top, n) :: rest))
       [KpiCard "TOTAL INCIDENTS" (Count 4);
        KpiCard "HIGH RISK SECTOR" (Text "East");
        KpiCard "PRIMARY OFFENSE" (Text "assault");
        KpiCard "PEAK ACTIVITY" (HourOfDay 7);
        DeckChart (rows tied_df);
        BarChart [(Str "theft", 2); (Str "assault", 2)];
        AreaChart (groupby_size (map date (rows tied_df)))] /\
    n = count primary_code (map crime_type (rows tied_df)).
Proof.
  destruct (top_bar_matches_primary_offense tied_df _ ltac:(vm_compute; reflexivity))
    as (top & n & rest & c & Hbar & Hkpi & Hn & _).
  exists top, n, rest, c; split; [exact Hbar | exact Hn].
Defined.

Lemma length_le_sum (l : list nat) :
  (forall n, In n l -> 1 <= n) -> List.length l <= list_sum l.
Proof.
  induction l as [|n l IH]; intros Hall; simpl; [lia|].
  specialize (Hall n (or_introl eq_refl)) as Hn.
  specialize (IH (fun m Hm => Hall m (or_intror Hm))); lia.
Qed.

(** The groups whose key passes a test count the cells that pass it. *)
Lemma group_sizes_part {A} `{OrderedLaws A} (p : A -> bool) (keys : list A) :
  list_sum (map snd (filter (fun e => p (fst e)) (group_sizes keys)))
  = List.length (filter p keys).
Proof.
  unfold group_sizes.
  rewrite (filter_map_swap (fun k => (k, count k keys)) (fun e => p (fst e))).
  rewrite map_map; cbn [snd fst].
  rewrite <- (sum_counts (filter p (sort (unique keys))) (filter p keys)).
  - f_equal; apply map_ext_in; intros k Hk; apply filter_In in Hk.
    symmetry; now apply count_filter.
  - apply NoDup_filter, (Permutation_NoDup (Permutation_sym (sort_perm _))), NoDup_unique.
  - intros x Hx; apply filter_In in Hx; destruct Hx as [Hx Hp].
    apply filter_In; split; [|assumption].
    apply (Permutation_in _ (Permutation_sym (sort_perm _))), In_unique, Hx.
Qed.

(** X14.  In the trend series every entry counts at least one row and
    there are at most as many entries as rows.  On a filtered frame
    whose [day] column is the one [load_data] derived, the entries whose
    timestamp falls on one calendar day add up to the number of rows of
    that day: the series refines the per-day counts. *)
Theorem trend_refines_days (view : DataFrame) (els : list element)
        (trend : list (Timestamp * nat)) :
  dashboard view = Ok els ->
  In (AreaChart trend) els ->
  Forall (fun r => day r = isoformat (ts_date (date r))) (rows view) ->
  (forall t n, In (t, n) trend -> 1 <= n) /\
  List.length trend <= List.length (rows view) /\
  (forall d,
      list_sum (map snd (filter (fun e => String.eqb (isoformat (ts_date (fst e))) d)
                                trend))
      = List.length (filter (fun r => String.eqb (day r) d) (rows view))).
Proof.
  intros Hdash Hin Hday.
  rewrite (proj2 (proj2 (dashboard_charts view els Hdash)) trend Hin).
  assert (Hpos : forall t n, In (t, n) (groupby_size (map date (rows view))) -> 1 <= n).
  { intros t n Ht; apply groupby_size_In in Ht; destruct Ht as (Ht & _ & ->).
    now apply count_pos_In. }
  split; [exact Hpos | split].
  - rewrite <- (length_map date (rows view)).
    replace (List.length (map date (rows view)))
      with (List.length (dropna (map date (rows view))))
      by now rewrite dropna_stamps.
    rewrite <- (groupby_size_sum (map date (rows view))),
            <- (length_map snd (groupby_size (map date (rows view)))).
    apply length_le_sum; intros n Hn.
    apply in_map_iff in Hn; destruct Hn as ([t m] & <- & Hm); eauto.
  - intros d.
    unfold groupby_size; rewrite dropna_stamps.
    rewrite (group_sizes_part (fun t => String.eqb (isoformat (ts_date t)) d)).
    rewrite filter_map_swap, length_map.
    f_equal; apply filter_ext_in; intros r Hr.
    rewrite Forall_forall in Hday; now rewrite (Hday r Hr).
Qed.

Lemma trend_refines_days_witness :
  list_sum (map snd (filter (fun e => String.eqb (isoformat (ts_date (fst e))) "2024-01-01")
                            [(mkTimestamp 2024 1 1 10 0 0, 1);
                             (mkTimestamp 2024 1 1 11 30 0, 1);
                             (mkTimestamp 2024 1 2 9 15 0, 1)]))
  = List.length (filter (fun r => String.eqb (day r) "2024-01-01") (rows sample_df)).
Proof.
  refine (proj2 (proj2 (trend_refines_days sample_df _ _ _ _ _)) "2024-01-01").
  - vm_compute; reflexivity.
  - simpl; auto 10.
  - repeat constructor.
Defined.

(* ------------------------------------------------------------------ *)
(** ** The footer table *)

Lemma first_missing_None (wanted cols : list string) :
  first_missing wanted cols = None <->
  forall c, In c wanted -> has_label c cols = true.
Proof.
  induction wanted as [|c rest IH]; simpl; [tauto|].
  destruct (has_label c cols) eqn:E.
  - rewrite IH; split; [intros Hall c' [<- | Hc']; auto | auto].
  - split; [discriminate|]. intros Hall; rewrite (Hall c) in E by now left.
    discriminate.
Qed.

Lemma first_missing_Some (wanted cols : list string) (c : string) :
  first_missing wanted cols = Some c -> In c wanted /\ has_label c cols = false.
Proof.
  induction wanted as [|c' rest IH]; simpl; [discriminate|].
  destruct (has_label c' cols) eqn:E.
  - intros H; destruct (IH H); auto.
  - intros H; injection H as <-; auto.
Qed.

Lemma insert_newest_perm (x : LogRow) (l : list LogRow) :
  Permutation (insert_newest x l) (x :: l).
Proof.
  induction l as [|y l IH]; simpl; [reflexivity|].
  destruct (ts_leb (log_date y) (log_date x)); [reflexivity|].
  rewrite IH; apply perm_swap.
Qed.

Lemma sort_newest_first_perm (l : list LogRow) : Permutation (sort_newest_first l) l.
Proof.
  induction l as [|x l IH]; simpl; [reflexivity|].
  now rewrite insert_newest_perm, IH.
Qed.

Lemma insert_newest_sorted (x : LogRow) (l : list LogRow) :
  StronglySorted (fun a b => ts_leb (log_date b) (log_date a) = true) l ->
  StronglySorted (fun a b => ts_leb (log_date b) (log_date a) = true) (insert_newest x l).
Proof.
  induction 1 as [|y l Hl IH Hy]; simpl.
  - repeat constructor.
  - destruct (ts_leb (log_date y) (log_date x)) eqn:E.
    + constructor; [now constructor|].
      constructor; [assumption|].
      rewrite Forall_forall in *; intros z Hz.
      eapply ts_leb_trans; eauto.
    + constructor; [assumption|].
      rewrite Forall_forall in *; intros z Hz.
      apply (Permutation_in _ (insert_newest_perm x l)) in Hz.
      destruct Hz as [<- | Hz]; [|auto].
      destruct (ts_leb_total (log_date y) (log_date x)); congruence.
Qed.

(** X15.  The table of the expander needs the six columns it shows: when
    one is missing it raises a [KeyError] for a missing label.  With the
    six present it holds every row of the filtered frame exactly once,
    newest first. *)
Theorem data_feed_newest_first (view : DataFrame) :
  ((forall c, In c log_labels -> has_label c (columns view) = true) ->
   exists log,
     data_feed view = Ok log /\
     Permutation log (map project (rows view)) /\
     StronglySorted (fun a b => ts_leb (log_date b) (log_date a) = true) log) /\
  (forall c, In c log_labels -> has_label c (columns view) = false ->
             exists c', data_feed view = Raise (KeyError c') /\
                        In c' log_labels /\ has_label c' (columns view) = false).
Proof.
  unfold data_feed; split.
  - intros Hall; apply first_missing_None in Hall; rewrite Hall.
    eexists; split; [reflexivity|]. split; [apply sort_newest_first_perm|].
    unfold sort_newest_first.
    induction (map project (rows view)); simpl;
      [constructor | now apply insert_newest_sorted].
  - intros c Hc Hmiss.
    destruct (first_missing log_labels (columns view)) as [c'|] eqn:E.
    + exists c'; split; [reflexivity | now apply first_missing_Some].
    + rewrite first_missing_None in E; rewrite (E c Hc) in Hmiss; discriminate.
Qed.

Lemma data_feed_newest_first_witness :
  (exists log,
      data_feed sample_df = Ok log /\
      Permutation log (map project (rows sample_df)) /\
      StronglySorted (fun a b => ts_leb (log_date b) (log_date a) = true) log) /\
  (exists c', data_feed (mkDataFrame ["date"; "hour"; "zone"; "crime_type"; "day"]
                                     (rows sample_df))
              = Raise (KeyError c') /\
              In c' log_labels).
Proof.
  split.
  - apply (proj1 (data_feed_newest_first sample_df)).
    intros c Hc; simpl in Hc.
    repeat (destruct Hc as [<- | Hc]; [reflexivity|]); now elim Hc.
  - destruct (proj2 (data_feed_newest_first
                       (mkDataFrame ["date"; "hour"; "zone"; "crime_type"; "day"]
                                    (rows sample_df)))
                    "latitude") as (c' & E & Hin & _).
    + simpl; auto 10.
    + reflexivity.
    + exists c'; split; assumption.
Defined.

(** X16.  A file that is found and well formed but holds no data row
    loads into a frame with columns and no rows; the script treats it as
    it treats a failed load: the sidebar shows no widget and the run
    stops on the error box. *)
Theorem header_only_file_shown_as_offline (parse : string -> option Timestamp)
        (fs : FileSystem) (ui : Criteria) (raw : RawFrame) :
  fst (read_source fs) = Ok raw ->
  has_label "date" (raw_columns raw) = true ->
  raw_rows raw = [] ->
  fst (load_data parse fs)
  = Ok {| columns := with_label "day" (with_label "hour" (raw_columns raw));
          rows := [] |} /\
  fst (load_data parse fs) <> Ok empty_frame /\
  app parse fs ui = Stopped [SidebarTitle; PageTitle; ErrorBox offline_msg].
Proof.
  intros Hraw Hdate Hrows.
  assert (Hload : fst (load_data parse fs)
                  = Ok {| columns := with_label "day" (with_label "hour" (raw_columns raw));
                          rows := [] |}).
  { rewrite load_data_unfold; unfold load_body.
    destruct (read_source fs) as [r log]; cbn [fst] in *; subst r; cbn [bind].
    unfold process, raw_getitem; rewrite Hdate, Hrows; reflexivity. }
  split; [exact Hload | split].
  - rewrite Hload; intros E; injection E as E.
    assert (Hday : has_label "day" (with_label "day" (with_label "hour" (raw_columns raw)))
                   = true)
      by (rewrite has_label_with_label, String.eqb_refl; apply orb_true_r).
    rewrite E in Hday; discriminate.
  - rewrite (app_empty_view parse fs ui _ [SidebarTitle] empty_frame Hload);
      [reflexivity | | reflexivity].
    apply sidebar_empty; unfold df_empty; cbn [rows columns].
    now destruct (with_label "day" (with_label "hour" (raw_columns raw))).
Qed.

Lemma header_only_file_shown_as_offline_witness :
  app iso_datetime (only_primary (mkRawFrame csv_header [])) scenario_ui
  = Stopped [SidebarTitle; PageTitle; ErrorBox offline_msg].
Proof.
  apply (proj2 (proj2 (header_only_file_shown_as_offline iso_datetime
                         (only_primary (mkRawFrame csv_header [])) scenario_ui
                         (mkRawFrame csv_header []) eq_refl eq_refl eq_refl))).
Defined.

(** X17.  With a range of two calendar dates, a row of the loaded frame
    is kept iff the calendar date of its timestamp lies in the range,
    both ends included, and its sector and offense are selected: the
    time of day plays no part, so a row late on the last day is kept. *)
Theorem range_filter_by_calendar_date (parse : string -> option Timestamp)
        (fs : FileSystem) (ui : Criteria) (df : DataFrame)
        (side : list element) (view : DataFrame) (start_d end_d : Date) :
  fst (load_data parse fs) = Ok df ->
  sidebar df ui = Ok (side, view) ->
  dates ui = DateTuple [start_d; end_d] ->
  valid_date start_d = true -> valid_date end_d = true ->
  Forall (fun r => valid_date (ts_date (date r)) = true) (rows df) ->
  forall r, In r (rows view) <->
            In r (rows df) /\
            date_le start_d (ts_date (date r)) /\
            date_le (ts_date (date r)) end_d /\
            In (zone r) (zones ui) /\ In (crime_type r) (crimes ui).
Proof.
  intros Hload Hside Hdates Hs He Hvalid r.
  rewrite (proj1 (sidebar_rows parse fs ui df side view Hload Hside)).
  rewrite filter_In_test, Hdates; cbn [date_test].
  destruct (load_data_derived parse fs df Hload) as [-> | (_ & _ & _ & Hrows)];
    [simpl; tauto|].
  rewrite Forall_forall in Hvalid, Hrows.
  split; intros (Hin & Hrest); (split; [assumption|]);
    destruct (Hrows r Hin) as (_ & Eday); specialize (Hvalid r Hin);
    rewrite Eday, !str_leb_isoformat, andb_true_iff, !date_leb_le in * by assumption;
    tauto.
Qed.

Lemma range_filter_by_calendar_date_witness :
  In (mkRow (mkTimestamp 2024 1 1 11 30 0) 11 "2024-01-01" "B" "theft" "28.62" "77.21")
     (rows (loc sample_df [true; true; false])).
Proof.
  apply (range_filter_by_calendar_date iso_datetime (only_primary sample_csv) scenario_ui
           sample_df sample_widgets (loc sample_df [true; true; false])
           (mkDate 2024 1 1) (mkDate 2024 1 1)).
  - vm_compute; reflexivity.
  - vm_compute; reflexivity.
  - reflexivity.
  - reflexivity.
  - reflexivity.
  - repeat constructor.
  - split; [simpl; auto|].
    unfold date_le; simpl. repeat split; auto; lia.
Defined.
